(** * import_csv_to_json/src/App.js: the CSV-row to questionnaire transform

    A shallow embedding of [question_types], [questionnaire_exists],
    [questions_responses] and [json_restructure], together with the few
    pieces of the ECMAScript runtime they call ([split], [trim], property
    lookup on an object literal, [Array.prototype.find]); then of
    [json_link], [papa_results] and the listener of the file selector,
    with [encodeURIComponent], the two [replace] calls and the regular
    expression of the extension. *)

From Stdlib Require Import String Ascii List Bool Arith Lia Permutation DecimalString.
Import ListNotations.
Open Scope string_scope.

(* ================================================================== *)
(** ** The fragment of the ECMAScript runtime used by App.js *)
(* ================================================================== *)

Module JS.

(** Strings are sequences of code units; the model keeps the code units
    below 256, one [ascii] each. *)

(** The only exception the transform can raise: reading property
    [reading] of [undefined]. *)
Inductive exception : Type :=
| TypeError (reading : string).

(** Completion of a statement list: normal or abrupt (a throw). *)
Inductive completion (A : Type) : Type :=
| Return (a : A)
| Throw (e : exception).
Arguments Return {A} a.
Arguments Throw {A} e.

Definition bind {A B} (c : completion A) (k : A -> completion B) : completion B :=
  match c with
  | Return a => k a
  | Throw e => Throw e
  end.

(** A value read from a property: [undefined], a string, or a member
    inherited from [Object.prototype] (a function, or the prototype
    object itself for [__proto__]). *)
Inductive value : Type :=
| undefined
| str (s : string)
| inherited (name : string).

Definition LF : ascii := "010"%char.
Definition comma : ascii := ","%char.
Definition equals : ascii := "="%char.

(** WhiteSpace and LineTerminator code units (below 256): TAB, LF, VT,
    FF, CR, SP, NBSP. *)
Definition is_white_space (c : ascii) : bool :=
  let n := nat_of_ascii c in
  (((9 <=? n) && (n <=? 13)) || (n =? 32) || (n =? 160))%nat.

Fixpoint trimStart (s : string) : string :=
  match s with
  | EmptyString => EmptyString
  | String c r => if is_white_space c then trimStart r else s
  end.

Fixpoint trimEnd (s : string) : string :=
  match s with
  | EmptyString => EmptyString
  | String c r =>
      match trimEnd r with
      | EmptyString => if is_white_space c then EmptyString else String c EmptyString
      | r' => String c r'
      end
  end.

(** [String.prototype.trim] *)
Definition trim (s : string) : string := trimEnd (trimStart s).

(** [String.prototype.split] with a one-character separator: the
    substrings between the occurrences of [sep]; never empty. *)
Fixpoint split (sep : ascii) (s : string) : list string :=
  match s with
  | EmptyString => [EmptyString]
  | String c r =>
      if Ascii.eqb c sep then EmptyString :: split sep r
      else match split sep r with
           | h :: t => String c h :: t
           | [] => [String c EmptyString]
           end
  end.

(** [o.split(sep)] where [o] may be [undefined] *)
Definition split_of (o : option string) (sep : ascii) : completion (list string) :=
  match o with
  | Some s => Return (split sep s)
  | None => Throw (TypeError "split")
  end.

(** [o.trim()] where [o] may be [undefined] *)
Definition trim_of (o : option string) : completion string :=
  match o with
  | Some s => Return (trim s)
  | None => Throw (TypeError "trim")
  end.

(** The property names of [Object.prototype], which every object
    literal inherits. *)
Definition Object_prototype : list string :=
  [ "constructor"; "hasOwnProperty"; "isPrototypeOf";
    "propertyIsEnumerable"; "toLocaleString"; "toString"; "valueOf";
    "__proto__"; "__defineGetter__"; "__defineSetter__";
    "__lookupGetter__"; "__lookupSetter__" ].

Definition mem (k : string) (l : list string) : bool :=
  existsb (String.eqb k) l.

Fixpoint own (props : list (string * string)) (k : string) : option string :=
  match props with
  | [] => None
  | (k', v) :: rest => if String.eqb k k' then Some v else own rest k
  end.

(** [obj[k]] on an object literal with string-valued own properties:
    own properties first, then the prototype chain. *)
Definition get (props : list (string * string)) (k : string) : value :=
  match own props k with
  | Some v => str v
  | None => if mem k Object_prototype then inherited k else undefined
  end.

(** A number in a boolean position is true unless it is 0. *)
Definition truthy (n : nat) : bool := negb (n =? 0)%nat.

End JS.

Import JS.

Notation "x <- c ;; k" := (bind c (fun x => k))
  (at level 61, c at next level, right associativity).
Notation "' p <- c ;; k" := (bind c (fun x => match x with p => k end))
  (at level 61, p pattern, c at next level, right associativity).

(* ================================================================== *)
(** ** Data model *)
(* ================================================================== *)

(** A row as Papa Parse delivers it with [header: true].  The columns
    Question Group Instruction and Response Options may be missing
    ([None], read as [undefined]). *)
Record Row : Type := {
  Questionnaire_Name : string;
  Questionnaire_Abbreviation : string;
  Question_Group_Instruction : option string;
  Question : string;
  Question_Abbreviation : string;
  Response_Type : string;
  Response_Options : option string;
}.

Record Option : Type := {
  text : string;
  value : string;
}.

(** The object literals of [questions_responses].  [q_rows = None]: the
    object has no "rows" key; [Some None]: the key is there, bound to
    [undefined]; [Some (Some l)]: bound to the array [l]. *)
Record Question_t : Type := {
  q_title : string;
  q_type : JS.value;
  q_rows : option (option (list Option));
  q_variable_name : string;
}.

Record Questionnaire : Type := {
  activity_type : string;
  mode : string;
  frequency : string;
  title : string;
  questions : list Question_t;
}.

(* ================================================================== *)
(** ** The program *)
(* ================================================================== *)

(** Lines 19-24. *)
Definition question_types : list (string * string) :=
  [ ("Single Choice", "single_sel");
    ("Image", "image_sel");
    ("Multiple Choice", "multi_sel");
    ("Text Entry", "text") ].

(** Lines 28-30.  [this] is the title that [find] receives as its
    second argument; [==] between two strings compares their code
    units. *)
Definition questionnaire_exists (this : string) (questionnaire_array : Questionnaire) : bool :=
  String.eqb this (title questionnaire_array).

(** Lines 34-47. *)
Definition questions_responses (test : nat) (question_title : string)
    (question_types : list (string * string)) (file_json_array_i : Row)
    (response_json : option (list Option)) : Question_t :=
  if truthy test then
    {| q_title := question_title;
       q_type := get question_types (Response_Type file_json_array_i);
       q_rows := Some response_json;
       q_variable_name := Question_Abbreviation file_json_array_i |}
  else
    {| q_title := question_title;
       q_type := get question_types (Response_Type file_json_array_i);
       q_rows := None;
       q_variable_name := Question_Abbreviation file_json_array_i |}.

(** Lines 63-69: the body of the inner loop, for one element of
    [responses]. *)
Definition response_option (responses_j : string) : completion Option :=
  let response_value := split equals responses_j in
  t <- trim_of (nth_error response_value 1) ;;
  v <- trim_of (nth_error response_value 0) ;;
  Return {| text := t; value := v |}.

(** Lines 62-70: the inner loop, pushing onto [response_json]. *)
Fixpoint for_j (responses : list string) (response_json : list Option)
    : completion (list Option) :=
  match responses with
  | [] => Return response_json
  | responses_j :: rest =>
      o <- response_option responses_j ;;
      for_j rest (response_json ++ [o])
  end.

(** Line 54. *)
Definition questionnaire_title (r : Row) : string :=
  if String.eqb (Questionnaire_Name r) (Questionnaire_Abbreviation r)
  then Questionnaire_Name r
  else Questionnaire_Abbreviation r ++ " (" ++ Questionnaire_Name r ++ ")".

(** Lines 57-60. *)
Definition split_responses (o : option string) : completion (list string) :=
  responses <- split_of o LF ;;
  if (List.length responses <? 2)%nat then split_of o comma else Return responses.

(** Lines 72-75. *)
Definition compute_question_title (r : Row) : completion string :=
  question_title <- trim_of (Some (Question r)) ;;
  g <- trim_of (Question_Group_Instruction r) ;;
  if (0 <? String.length g)%nat then
    g' <- trim_of (Question_Group_Instruction r) ;;
    Return (g' ++ ": " ++ question_title)
  else Return question_title.

(** [existing_questionnaire["questions"].push(q)] on the object that
    [find] returned: the first element of [dbs_json] with that title. *)
Fixpoint push_question (this : string) (q : Question_t) (dbs_json : list Questionnaire)
    : list Questionnaire :=
  match dbs_json with
  | [] => []
  | e :: rest =>
      if questionnaire_exists this e then
        {| activity_type := activity_type e; mode := mode e;
           frequency := frequency e; title := title e;
           questions := questions e ++ [q] |} :: rest
      else e :: push_question this q rest
  end.

(** Lines 76-91. *)
Definition add_question (questionnaire_title : string) (q : Question_t)
    (dbs_json : list Questionnaire) : list Questionnaire :=
  match find (questionnaire_exists questionnaire_title) dbs_json with
  | Some _ => push_question questionnaire_title q dbs_json
  | None =>
      dbs_json ++
      [ {| activity_type := "survey"; mode := "basic"; frequency := "1";
           title := questionnaire_title; questions := [q] |} ]
  end.

(** Lines 54-91: one iteration of the outer loop.  The state is
    [dbs_json] and [response_json]; the latter is a [var], so it is
    function-scoped and keeps its value from one row to the next
    ([None] while still [undefined]). *)
Definition loop_body (st : list Questionnaire * option (list Option)) (r : Row)
    : completion (list Questionnaire * option (list Option)) :=
  let '(dbs_json, response_json) := st in
  let questionnaire_title := questionnaire_title r in
  '(responses, response_json) <-
     (if negb (String.eqb (Response_Type r) "Text Entry") then
        responses <- split_responses (Response_Options r) ;;
        response_json <- for_j responses [] ;;
        Return (responses, Some response_json)
      else Return ([], response_json)) ;;
  question_title <- compute_question_title r ;;
  Return
    (add_question questionnaire_title
       (questions_responses (List.length responses) question_title question_types r response_json)
       dbs_json,
     response_json).

(** Lines 53-93. *)
Fixpoint for_i (file_json_array : list Row)
    (st : list Questionnaire * option (list Option))
    : completion (list Questionnaire * option (list Option)) :=
  match file_json_array with
  | [] => Return st
  | r :: rest => st' <- loop_body st r ;; for_i rest st'
  end.

(** Lines 51-95. *)
Definition json_restructure (file_json_array : list Row) : completion (list Questionnaire) :=
  '(dbs_json, _) <- for_i file_json_array ([], None) ;;
  Return dbs_json.

(* ================================================================== *)
(** ** The rest of App.js: download links and the file selector *)
(* ================================================================== *)

(** [encodeURIComponent] leaves these code units as they are: letters,
    digits and [- _ . ! ~ * ' ( )]. *)
Definition uriUnescaped (c : ascii) : bool :=
  let n := nat_of_ascii c in
  (((65 <=? n) && (n <=? 90)) || ((97 <=? n) && (n <=? 122)) ||
   ((48 <=? n) && (n <=? 57)))%nat ||
  existsb (Ascii.eqb c) (list_ascii_of_string "-_.!~*'()").

Definition hex_digit (n : nat) : ascii :=
  nth n (list_ascii_of_string "0123456789ABCDEF") "0"%char.

(** One octet as [%XX]. *)
Definition percent (octet : nat) : string :=
  String "%" (String (hex_digit (octet / 16)) (String (hex_digit (octet mod 16)) "")).

(** [encodeURIComponent]: every other code unit is replaced by the
    escaped octets of its UTF-8 form, one octet below 128 and two from
    128 to 255. *)
Fixpoint encodeURIComponent (s : string) : string :=
  match s with
  | EmptyString => EmptyString
  | String c r =>
      let n := nat_of_ascii c in
      (if uriUnescaped c then String c ""
       else if (n <? 128)%nat then percent n
       else percent (192 + n / 64) ++ percent (128 + n mod 64))
      ++ encodeURIComponent r
  end.

(** [s.replace(/ /g, '_')] *)
Fixpoint replace_spaces (s : string) : string :=
  match s with
  | EmptyString => EmptyString
  | String c r => String (if Ascii.eqb c " " then "_"%char else c) (replace_spaces r)
  end.

(** The code units that [.] does not match in a regular expression:
    the line terminators LF and CR. *)
Definition is_line_terminator (c : ascii) : bool :=
  let n := nat_of_ascii c in ((n =? 10) || (n =? 13))%nat.

(** [s.replace(/.csv/g, '_csv')]: from left to right, every code unit
    other than a line terminator that is followed by "csv" is replaced,
    with that "csv", by "_csv"; the search goes on after the match. *)
Fixpoint replace_dot_csv (s : string) : string :=
  match s with
  | EmptyString => EmptyString
  | String c t =>
      match t with
      | String c1 (String c2 (String c3 r)) =>
          if negb (is_line_terminator c) && Ascii.eqb c1 "c" && Ascii.eqb c2 "s"
             && Ascii.eqb c3 "v"
          then "_csv" ++ replace_dot_csv r
          else String c (replace_dot_csv t)
      | _ => String c (replace_dot_csv t)
      end
  end.

(** [String(v)] for a string or [undefined] *)
Definition to_string (v : option string) : string :=
  match v with
  | Some s => s
  | None => "undefined"
  end.


(** A DOM node built by [createElement], [setAttribute] and
    [appendChild], or by [createTextNode]. *)
#[warnings="-register-all"]
Inductive node : Type :=
| Element (tagName : string) (attributes : list (string * string)) (childNodes : list node)
| TextNode (data : string).

Record File : Type := { name : string }.

(** What the code does to the page, the console and the parser. *)
Inductive effect : Type :=
| console_log_array (object : list Questionnaire)
| console_log (s : string)
| appendChild_json_out (out_list : node)
| alert (s : string)
| Papa_parse (file : File).

Section Links.

(** [JSON.stringify(object, null, '  ')] on a questionnaire and on the
    array of questionnaires. *)
Variable JSON_stringify : Questionnaire -> string.
Variable JSON_stringify_array : list Questionnaire -> string.

(** Line 104: the name under which a questionnaire is downloaded. *)
Definition download_name (object : Questionnaire) : string :=
  encodeURIComponent (replace_spaces (title object)) ++ ".json".


(** Line 125. *)
Definition object_name (file : File) : string :=
  replace_dot_csv (name file) ++ ".json".


End Links.

(** Lines 137 and 148: one attempt of [/(?:\.([^.]+))?$/] at the start
    of [s], giving the first capture.  The group matches a dot and all
    that follows when that is not empty and has no dot ([[^.]+] must
    reach the end for [$] to match); without the group, [$] matches
    only the empty [s]. *)
Fixpoint no_dot (s : string) : bool :=
  match s with
  | EmptyString => true
  | String c r => negb (Ascii.eqb c ".") && no_dot r
  end.

Definition re_match_here (s : string) : option (option string) :=
  match s with
  | EmptyString => Some None
  | String c rest =>
      if Ascii.eqb c "." && negb (String.eqb rest "") && no_dot rest
      then Some (Some rest) else None
  end.

(** [re.exec(s)]: the leftmost match; [None] for [null], otherwise
    element 1 of the result. *)
Fixpoint re_exec (s : string) : option (option string) :=
  match re_match_here s with
  | Some capture => Some capture
  | None =>
      match s with
      | EmptyString => None
      | String _ r => re_exec r
      end
  end.

(** Lines 147-158: the body of the loop over the selected files. *)
Definition on_file (file : File) : completion (list effect) :=
  match re_exec (name file) with
  | None => Throw (TypeError "1")
  | Some ext =>
      Return
        [ console_log ("Ext: " ++ to_string ext);
          if match ext with Some e => negb (String.eqb e "csv") | None => true end
          then alert ("Please upload a CSV worksheet based on our template, not a "
                      ++ to_string ext ++ " file.")
          else Papa_parse file ]
  end.

(** Lines 140-161: the listener of the file selector. *)
Fixpoint on_change (files : list File) : completion (list effect) :=
  match files with
  | [] => Return []
  | file :: rest =>
      effects <- on_file file ;;
      effects' <- on_change rest ;;
      Return (effects ++ effects')%list
  end.

(* ------------------------------------------------------------------ *)
(** Sample rows *)

Definition row (name abbr question rtype : string) (options : option string) : Row :=
  {| Questionnaire_Name := name; Questionnaire_Abbreviation := abbr;
     Question_Group_Instruction := Some ""; Question := question;
     Question_Abbreviation := "q"; Response_Type := rtype;
     Response_Options := options |}.

(** The segments of Scenario A: two options on two lines. *)
Definition two_lines : string := "0=Not at all" ++ String LF "1=Several days".

(** Three rows for two questionnaires: a choice question, a text
    question and a question of an unknown type with comma-separated
    options. *)
Definition sample_rows : list Row :=
  [ row "PHQ9" "PHQ9" " How? " "Single Choice" (Some two_lines);
    row "Patient Health Questionnaire" "PHQ9" "Why" "Text Entry" None;
    row "PHQ9" "PHQ9" "x" "Rating" (Some "1=Yes, 2=No") ].

Definition sample_q1 : Question_t :=
  {| q_title := "How?"; q_type := str "single_sel";
     q_rows := Some (Some [ {| text := "Not at all"; value := "0" |};
                            {| text := "Several days"; value := "1" |} ]);
     q_variable_name := "q" |}.

Definition sample_q2 : Question_t :=
  {| q_title := "Why"; q_type := str "text"; q_rows := None;
     q_variable_name := "q" |}.

Definition sample_q3 : Question_t :=
  {| q_title := "x"; q_type := undefined;
     q_rows := Some (Some [ {| text := "Yes"; value := "1" |};
                            {| text := "No"; value := "2" |} ]);
     q_variable_name := "q" |}.

Definition sample_out : list Questionnaire :=
  [ {| activity_type := "survey"; mode := "basic"; frequency := "1";
       title := "PHQ9"; questions := [sample_q1; sample_q3] |};
    {| activity_type := "survey"; mode := "basic"; frequency := "1";
       title := "PHQ9 (Patient Health Questionnaire)";
       questions := [sample_q2] |} ].

(** Choice rows whose only segment has ("1=Yes") or lacks ("1-Yes",
    "2-No") the "=" sign. *)
Definition good_row : Row := row "PHQ9" "PHQ9" "How?" "Single Choice" (Some "1=Yes").
Definition bad_row : Row := row "PHQ9" "PHQ9" "How?" "Single Choice" (Some "1-Yes").
Definition bad_row' : Row := row "PHQ9" "PHQ9" "How?" "Single Choice" (Some "2-No").

(* ================================================================== *)
(** ** Words of the specification, for comparison with the code *)
(* ================================================================== *)

(** Does [sep] occur in [s]? *)
Fixpoint contains (sep : ascii) (s : string) : bool :=
  match s with
  | EmptyString => false
  | String c r => Ascii.eqb c sep || contains sep r
  end.

(** The substring before the first [sep] (all of [s] if there is none). *)
Fixpoint before_first (sep : ascii) (s : string) : string :=
  match s with
  | EmptyString => EmptyString
  | String c r => if Ascii.eqb c sep then EmptyString else String c (before_first sep r)
  end.

(** Everything after the first [sep] (empty if there is none). *)
Fixpoint after_first (sep : ascii) (s : string) : string :=
  match s with
  | EmptyString => EmptyString
  | String c r => if Ascii.eqb c sep then r else after_first sep r
  end.

(** The elements of [l] in order of first appearance. *)
Fixpoint first_occurrences (l : list string) : list string :=
  match l with
  | [] => []
  | x :: rest => x :: filter (fun y => negb (String.eqb y x)) (first_occurrences rest)
  end.

(** Row [r] with its Response Options replaced by [o]. *)
Definition with_Response_Options (o : option string) (r : Row) : Row :=
  {| Questionnaire_Name := Questionnaire_Name r;
     Questionnaire_Abbreviation := Questionnaire_Abbreviation r;
     Question_Group_Instruction := Question_Group_Instruction r;
     Question := Question r;
     Question_Abbreviation := Question_Abbreviation r;
     Response_Type := Response_Type r;
     Response_Options := o |}.

(** [q] is the Question produced for row [r]: whatever the state of the
    loop, the iteration for [r] returns, and what it does is to add [q]
    to the questionnaire titled [questionnaire_title r]. *)
Definition produced (r : Row) (q : Question_t) : Prop :=
  forall dbs_json response_json, exists response_json',
    loop_body (dbs_json, response_json) r =
    Return (add_question (questionnaire_title r) q dbs_json, response_json').

(** Two rows that differ at most in the Response Options of a
    text-entry row. *)
Definition same_up_to_text_options (r1 r2 : Row) : Prop :=
  r1 = r2 \/
  (Response_Type r1 = "Text Entry" /\ exists o, r2 = with_Response_Options o r1).

(** Lines 54-75 and the call of [questions_responses], without the
    update of [dbs_json]: the question of the row and the new value of
    [response_json]. *)
Definition row_result (response_json : option (list Option)) (r : Row)
    : completion (Question_t * option (list Option)) :=
  '(responses, response_json) <-
     (if negb (String.eqb (Response_Type r) "Text Entry") then
        responses <- split_responses (Response_Options r) ;;
        response_json <- for_j responses [] ;;
        Return (responses, Some response_json)
      else Return ([], response_json)) ;;
  question_title <- compute_question_title r ;;
  Return
    (questions_responses (List.length responses) question_title question_types r response_json,
     response_json).

(** What [push_question] does to one element when titles are unique. *)
Definition push_to (this : string) (q : Question_t) (e : Questionnaire) : Questionnaire :=
  if questionnaire_exists this e then
    {| activity_type := activity_type e; mode := mode e;
       frequency := frequency e; title := title e;
       questions := questions e ++ [q] |}
  else e.

(** Every questionnaire of [dbs_json] holds, in row order, the questions
    produced for the rows of [rows] that compute its title. *)
Definition merged (rows : list Row) (dbs_json : list Questionnaire) : Prop :=
  forall Q, In Q dbs_json ->
    Forall2 produced
      (filter (fun r => String.eqb (questionnaire_title r) (title Q)) rows)
      (questions Q).

(* ================================================================== *)
(** ** Notions used to state further properties of the code *)
(* ================================================================== *)

(** The segments that lines 57-60 take from a Response Options. *)
Definition segments (s : string) : list string :=
  if contains LF s then split LF s else split comma s.


(** Number of occurrences of [c] in [s]. *)
Fixpoint count_char (c : ascii) (s : string) : nat :=
  match s with
  | EmptyString => 0
  | String c' r => (if Ascii.eqb c' c then 1 else 0) + count_char c r
  end.

(** Number of questions in a list of questionnaires. *)
Definition total_questions (dbs_json : list Questionnaire) : nat :=
  list_sum (map (fun Q => List.length (questions Q)) dbs_json).

(** [Q'] is [Q] with questions added at the end (possibly none). *)
Definition grows (Q Q' : Questionnaire) : Prop :=
  activity_type Q' = activity_type Q /\ mode Q' = mode Q /\
  frequency Q' = frequency Q /\ title Q' = title Q /\
  exists more, questions Q' = (questions Q ++ more)%list.

(** [d'] is [d] with its questionnaires grown in place and new
    questionnaires added at the end. *)
Definition extends (d d' : list Questionnaire) : Prop :=
  exists front back, d' = (front ++ back)%list /\ Forall2 grows d front.


(** Do all the code units of [s] satisfy [P]? *)
Fixpoint forall_chars (P : ascii -> bool) (s : string) : bool :=
  match s with
  | EmptyString => true
  | String c r => P c && forall_chars P r
  end.

(** The code units that [encodeURIComponent] can put out. *)
Definition uri_safe (c : ascii) : bool := uriUnescaped c || Ascii.eqb c "%".



(** A row with a group instruction (Scenario E). *)
Definition intro_row : Row :=
  {| Questionnaire_Name := "PHQ9"; Questionnaire_Abbreviation := "PHQ9";
     Question_Group_Instruction := Some " Intro ";
     Question := " How are you? "; Question_Abbreviation := " q1 ";
     Response_Type := "Text Entry"; Response_Options := None |}.

(** Rows without Question Group Instruction and without Response
    Options. *)
Definition no_instruction_row : Row :=
  {| Questionnaire_Name := "PHQ9"; Questionnaire_Abbreviation := "PHQ9";
     Question_Group_Instruction := None;
     Question := "Why"; Question_Abbreviation := "q";
     Response_Type := "Text Entry"; Response_Options := None |}.

Definition no_options_row : Row := row "PHQ9" "PHQ9" "How?" "Single Choice" None.

(** Two rows with different Name and Abbreviation and the same
    computed title. *)
Definition merge_row1 : Row :=
  row "Patient Health Questionnaire" "PHQ9" "Why" "Text Entry" None.
Definition merge_row2 : Row :=
  row "PHQ9 (Patient Health Questionnaire)" "PHQ9 (Patient Health Questionnaire)"
    "How" "Text Entry" None.


(* ================================================================== *)
(** ** Lemmas on the runtime functions *)
(* ================================================================== *)

Section SplitFacts.

Variable sep : ascii.

Lemma split_cons (s : string) : exists h t, split sep s = h :: t.
Proof.
  destruct s as [|c r]; simpl; [eauto|].
  destruct (Ascii.eqb c sep); [eauto|].
  destruct (split sep r); eauto.
Qed.

(** [split] is the first piece followed by the split of the rest. *)
Lemma split_unfold (s : string) :
  split sep s =
  before_first sep s ::
    (if contains sep s then split sep (after_first sep s) else []).
Proof.
  induction s as [|c r IH]; simpl; [reflexivity|].
  destruct (Ascii.eqb c sep); simpl; [reflexivity|].
  rewrite IH. reflexivity.
Qed.

Lemma split_length_lt_2 (s : string) :
  (List.length (split sep s) <? 2)%nat = negb (contains sep s).
Proof.
  rewrite split_unfold. destruct (contains sep s); simpl; [|reflexivity].
  destruct (split_cons (after_first sep s)) as (h & t & ->). reflexivity.
Qed.

Lemma nth_error_split_0 (s : string) :
  nth_error (split sep s) 0 = Some (before_first sep s).
Proof. rewrite split_unfold. reflexivity. Qed.

Lemma nth_error_split_1 (s : string) :
  nth_error (split sep s) 1 =
  if contains sep s then Some (before_first sep (after_first sep s)) else None.
Proof.
  rewrite split_unfold. destruct (contains sep s); simpl; [|reflexivity].
  apply nth_error_split_0.
Qed.

Lemma before_first_no_sep (s : string) :
  contains sep s = false -> before_first sep s = s.
Proof.
  induction s as [|c r IH]; simpl; [reflexivity|].
  destruct (Ascii.eqb c sep); simpl; [discriminate|].
  intros H. rewrite IH; auto.
Qed.

End SplitFacts.

Lemma mem_In (k : string) (l : list string) : mem k l = true <-> In k l.
Proof.
  unfold mem. rewrite existsb_exists. split.
  - intros (x & Hx & E). apply String.eqb_eq in E. subst. exact Hx.
  - intros H. exists k. split; [exact H|apply String.eqb_refl].
Qed.

Lemma mem_false (k : string) (l : list string) : mem k l = false <-> ~ In k l.
Proof.
  rewrite <- mem_In. destruct (mem k l); split; intros; congruence.
Qed.

(* ================================================================== *)
(** ** Lemmas on the option parser *)
(* ================================================================== *)

Lemma response_option_eq (seg : string) :
  response_option seg =
  if contains equals seg
  then Return {| text := trim (before_first equals (after_first equals seg));
                 value := trim (before_first equals seg) |}
  else Throw (TypeError "trim").
Proof.
  unfold response_option.
  rewrite nth_error_split_1, nth_error_split_0.
  destruct (contains equals seg); reflexivity.
Qed.

Lemma for_j_throw (segs : list string) (seg : string) :
  In seg segs -> contains equals seg = false ->
  forall acc, for_j segs acc = Throw (TypeError "trim").
Proof.
  intros Hin Hno. induction segs as [|s rest IH]; [destruct Hin|].
  intros acc. simpl. rewrite response_option_eq.
  destruct (contains equals s) eqn:E; simpl; [|reflexivity].
  destruct Hin as [->|Hin]; [congruence|]. apply IH, Hin.
Qed.

Lemma for_j_length (segs : list string) :
  forall acc l, for_j segs acc = Return l ->
  List.length l = List.length acc + List.length segs.
Proof.
  induction segs as [|s rest IH]; intros acc l; simpl.
  - intros [= <-]. lia.
  - destruct (response_option s) as [o|e]; simpl; [|discriminate].
    intros H. apply IH in H. rewrite H, length_app. simpl. lia.
Qed.


Lemma split_responses_Some (s : string) :
  split_responses (Some s) =
  Return (if contains LF s then split LF s else split comma s).
Proof.
  unfold split_responses. simpl. rewrite split_length_lt_2.
  destruct (contains LF s); reflexivity.
Qed.

Lemma split_responses_cons (o : option string) (segs : list string) :
  split_responses o = Return segs -> exists h t, segs = h :: t.
Proof.
  destruct o as [s|]; [|discriminate].
  rewrite split_responses_Some. intros [= <-].
  destruct (contains LF s); apply split_cons.
Qed.

(* ================================================================== *)
(** ** Lemmas on one iteration of the outer loop *)
(* ================================================================== *)

Lemma loop_body_row_result (dbs_json : list Questionnaire)
    (response_json : option (list Option)) (r : Row) :
  loop_body (dbs_json, response_json) r =
  ('(q, response_json') <- row_result response_json r ;;
   Return (add_question (questionnaire_title r) q dbs_json, response_json')).
Proof.
  unfold loop_body, row_result.
  destruct (negb (Response_Type r =? "Text Entry")); simpl.
  - destruct (split_responses (Response_Options r)) as [segs|e]; simpl; [|reflexivity].
    destruct (for_j segs []) as [l|e]; simpl; [|reflexivity].
    destruct (compute_question_title r); reflexivity.
  - destruct (compute_question_title r); reflexivity.
Qed.

(** The question of a row does not depend on the incoming value of
    [response_json]. *)
Lemma row_result_indep (r : Row) (rj rj0 : option (list Option))
    (q : Question_t) (rj1 : option (list Option)) :
  row_result rj r = Return (q, rj1) ->
  exists rj2, row_result rj0 r = Return (q, rj2).
Proof.
  unfold row_result.
  destruct (negb (Response_Type r =? "Text Entry")); simpl.
  - intros H. eexists. exact H.
  - destruct (compute_question_title r) as [t|e]; simpl; [|discriminate].
    unfold questions_responses. simpl. intros [= <- <-]. eauto.
Qed.

Lemma row_result_produced (r : Row) (rj : option (list Option))
    (q : Question_t) (rj1 : option (list Option)) :
  row_result rj r = Return (q, rj1) -> produced r q.
Proof.
  intros H dbs_json rj0.
  destruct (row_result_indep r rj rj0 q rj1 H) as (rj2 & H2).
  exists rj2. rewrite loop_body_row_result, H2. reflexivity.
Qed.

Lemma loop_body_produced (dbs_json dbs_json' : list Questionnaire)
    (rj rj' : option (list Option)) (r : Row) :
  loop_body (dbs_json, rj) r = Return (dbs_json', rj') ->
  exists q, produced r q /\
            dbs_json' = add_question (questionnaire_title r) q dbs_json.
Proof.
  rewrite loop_body_row_result.
  destruct (row_result rj r) as [[q rj1]|e] eqn:E; simpl; [|discriminate].
  intros [= <- <-]. exists q. split; [|reflexivity].
  eapply row_result_produced, E.
Qed.

Lemma produced_row_result (r : Row) (q : Question_t) :
  produced r q -> exists rj1, row_result None r = Return (q, rj1).
Proof.
  intros H. destruct (H [] None) as (rj' & E).
  rewrite loop_body_row_result in E.
  destruct (row_result None r) as [[q0 rj1]|e]; simpl in E; [|discriminate].
  unfold add_question in E. simpl in E. injection E as E _. subst q0. eauto.
Qed.

Lemma produced_unique (r : Row) (q q' : Question_t) :
  produced r q -> produced r q' -> q = q'.
Proof.
  intros H H'. apply produced_row_result in H, H'.
  destruct H as (rj1 & E), H' as (rj2 & E'). congruence.
Qed.

Lemma produced_text_entry (r : Row) (q : Question_t) :
  Response_Type r = "Text Entry" -> produced r q -> q_rows q = None.
Proof.
  intros Ht H. apply produced_row_result in H. destruct H as (rj1 & E).
  unfold row_result in E. rewrite Ht in E. simpl in E.
  destruct (compute_question_title r); simpl in E; [|discriminate].
  injection E as <- _. reflexivity.
Qed.

Lemma produced_not_text_entry (r : Row) (q : Question_t) :
  Response_Type r <> "Text Entry" -> produced r q ->
  exists segs l,
    split_responses (Response_Options r) = Return segs /\
    for_j segs [] = Return l /\
    List.length l = List.length segs /\
    q_rows q = Some (Some l) /\
    l <> [].
Proof.
  intros Ht H. apply produced_row_result in H. destruct H as (rj1 & E).
  unfold row_result in E.
  apply String.eqb_neq in Ht. rewrite Ht in E. simpl in E.
  destruct (split_responses (Response_Options r)) as [segs|e] eqn:Es; simpl in E; [|discriminate].
  destruct (for_j segs []) as [l|e] eqn:Ej; simpl in E; [|discriminate].
  destruct (compute_question_title r); simpl in E; [|discriminate].
  injection E as <- _.
  pose proof (for_j_length _ _ _ Ej) as Hl. simpl in Hl.
  destruct (split_responses_cons _ _ Es) as (h & t & ->).
  exists (h :: t), l. repeat split; auto.
  destruct l; [discriminate|]. discriminate.
Qed.

(* ================================================================== *)
(** ** Lemmas on lists of titles *)
(* ================================================================== *)

Lemma filter_nil {A} (f : A -> bool) (l : list A) :
  (forall x, In x l -> f x = false) -> filter f l = [].
Proof.
  induction l as [|a l IH]; simpl; intros H; [reflexivity|].
  rewrite (H a) by auto. apply IH. auto.
Qed.

Lemma Forall2_In_l {A B} (P : A -> B -> Prop) (l : list A) (l' : list B) (x : A) :
  Forall2 P l l' -> In x l -> exists y, In y l' /\ P x y.
Proof.
  induction 1 as [|a b l l' Hab _ IH]; simpl; [tauto|].
  intros [<-|Hin]; [eauto|].
  destruct (IH Hin) as (y & Hy & Py). eauto.
Qed.

Lemma first_occurrences_In (l : list string) (x : string) :
  In x (first_occurrences l) <-> In x l.
Proof.
  induction l as [|a l IH]; simpl; [tauto|].
  rewrite filter_In, IH. split.
  - intros [H|[H _]]; auto.
  - intros [H|H]; [auto|].
    destruct (string_dec a x) as [E|N]; [auto|].
    right. split; [exact H|].
    apply negb_true_iff, String.eqb_neq. congruence.
Qed.

Lemma first_occurrences_NoDup (l : list string) : NoDup (first_occurrences l).
Proof.
  induction l as [|a l IH]; simpl; constructor.
  - rewrite filter_In. intros [_ H].
    rewrite String.eqb_refl in H. discriminate.
  - apply NoDup_filter, IH.
Qed.

Lemma first_occurrences_snoc (l : list string) (x : string) :
  first_occurrences (l ++ [x]) =
  if mem x l then first_occurrences l else (first_occurrences l ++ [x])%list.
Proof.
  induction l as [|a l IH]; simpl; [reflexivity|].
  rewrite IH. unfold mem. simpl. fold (mem x l).
  destruct (String.eqb_spec x a) as [->|N]; simpl.
  - destruct (mem a l); [reflexivity|].
    rewrite filter_app. simpl. rewrite String.eqb_refl. simpl.
    rewrite app_nil_r. reflexivity.
  - destruct (mem x l); [reflexivity|].
    rewrite filter_app. simpl.
    apply String.eqb_neq in N. rewrite N. reflexivity.
Qed.

Lemma mem_first_occurrences (l : list string) (x : string) :
  mem x (first_occurrences l) = mem x l.
Proof.
  destruct (mem x l) eqn:E.
  - apply mem_In, first_occurrences_In, mem_In, E.
  - apply mem_false. rewrite first_occurrences_In. apply mem_false, E.
Qed.

Lemma first_occurrences_length (l : list string) :
  List.length (first_occurrences l) = List.length (nodup string_dec l).
Proof.
  apply Permutation_length, NoDup_Permutation.
  - apply first_occurrences_NoDup.
  - apply NoDup_nodup.
  - intros x. rewrite first_occurrences_In, nodup_In. tauto.
Qed.

(* ================================================================== *)
(** ** Lemmas on the update of [dbs_json] *)
(* ================================================================== *)

Lemma find_None_titles (t : string) (d : list Questionnaire) :
  find (questionnaire_exists t) d = None <-> ~ In t (map title d).
Proof.
  induction d as [|a d IH]; simpl; [tauto|].
  unfold questionnaire_exists at 1.
  destruct (String.eqb_spec t (title a)) as [E|N].
  - split; [discriminate|]. intros H. exfalso. apply H. auto.
  - rewrite IH. split.
    + intros H [E|E]; [congruence|auto].
    + intros H E. apply H. auto.
Qed.

Lemma push_question_titles (t : string) (q : Question_t) (d : list Questionnaire) :
  map title (push_question t q d) = map title d.
Proof.
  induction d as [|a d IH]; simpl; [reflexivity|].
  destruct (questionnaire_exists t a); simpl; congruence.
Qed.

Lemma add_question_titles (t : string) (q : Question_t) (d : list Questionnaire) :
  map title (add_question t q d) =
  if mem t (map title d) then map title d else (map title d ++ [t])%list.
Proof.
  unfold add_question.
  destruct (find (questionnaire_exists t) d) eqn:E.
  - rewrite push_question_titles.
    destruct (mem t (map title d)) eqn:M; [reflexivity|].
    apply mem_false, find_None_titles in M. congruence.
  - rewrite map_app. simpl.
    apply find_None_titles, mem_false in E. rewrite E. reflexivity.
Qed.

Lemma push_question_NoDup (t : string) (q : Question_t) (d : list Questionnaire) :
  NoDup (map title d) -> push_question t q d = map (push_to t q) d.
Proof.
  induction d as [|a d IH]; simpl; intros ND; [reflexivity|].
  inversion ND as [|x l Hnotin ND']; subst.
  unfold push_to at 1.
  destruct (questionnaire_exists t a) eqn:E.
  - f_equal. rewrite <- (map_id d) at 1.
    apply map_ext_in. intros Q HQ. unfold push_to.
    destruct (questionnaire_exists t Q) eqn:E2; [|reflexivity].
    exfalso. unfold questionnaire_exists in *.
    apply String.eqb_eq in E, E2. apply Hnotin.
    rewrite <- E, E2. apply in_map, HQ.
  - f_equal. apply IH, ND'.
Qed.

Lemma add_question_merged (rows : list Row) (d : list Questionnaire)
    (r : Row) (q : Question_t) :
  map title d = first_occurrences (map questionnaire_title rows) ->
  merged rows d -> produced r q ->
  merged (rows ++ [r]) (add_question (questionnaire_title r) q d).
Proof.
  intros Ht Hm Hp Q HQ. rewrite filter_app. simpl.
  unfold add_question in HQ.
  destruct (find (questionnaire_exists (questionnaire_title r)) d) eqn:E.
  - rewrite push_question_NoDup in HQ
      by (rewrite Ht; apply first_occurrences_NoDup).
    apply in_map_iff in HQ. destruct HQ as (Q0 & <- & HQ0).
    specialize (Hm Q0 HQ0).
    unfold push_to, questionnaire_exists.
    destruct (String.eqb (questionnaire_title r) (title Q0)) eqn:E0; simpl.
    + rewrite E0. apply Forall2_app; [exact Hm|]. constructor; [exact Hp|constructor].
    + rewrite E0, app_nil_r. exact Hm.
  - apply find_None_titles in E.
    apply in_app_or in HQ. destruct HQ as [HQ|[<-|[]]].
    + assert (N : String.eqb (questionnaire_title r) (title Q) = false).
      { apply String.eqb_neq. intros EQ. apply E. rewrite EQ. apply in_map, HQ. }
      rewrite N, app_nil_r. apply Hm, HQ.
    + simpl. rewrite String.eqb_refl.
      rewrite filter_nil; [repeat constructor; exact Hp|].
      intros r' Hr'. apply String.eqb_neq. intros EQ. apply E.
      rewrite Ht, first_occurrences_In, <- EQ. apply in_map, Hr'.
Qed.

(* ================================================================== *)
(** ** Lemmas on the outer loop *)
(* ================================================================== *)

Lemma for_i_app (l1 l2 : list Row) :
  forall st, for_i (l1 ++ l2) st = (st' <- for_i l1 st ;; for_i l2 st').
Proof.
  induction l1 as [|r l1 IH]; simpl; intros st; [reflexivity|].
  destruct (loop_body st r); simpl; auto.
Qed.

Lemma for_i_invariant (rows : list Row) :
  forall d rj, for_i rows ([], None) = Return (d, rj) ->
  map title d = first_occurrences (map questionnaire_title rows) /\
  merged rows d.
Proof.
  induction rows as [|r rows IH] using rev_ind; intros d rj.
  - simpl. intros [= <- <-]. split; [reflexivity|intros Q []].
  - rewrite for_i_app.
    destruct (for_i rows ([], None)) as [[d0 rj0]|e] eqn:E; cbn [bind for_i];
      [|discriminate].
    destruct (loop_body (d0, rj0) r) as [[d1 rj1]|e] eqn:EL; cbn [bind];
      [|discriminate].
    intros [= <- <-].
    destruct (IH _ _ eq_refl) as [Ht Hm].
    apply loop_body_produced in EL. destruct EL as (q & Hp & ->).
    split.
    + rewrite add_question_titles, Ht, map_app. cbn [map].
      rewrite first_occurrences_snoc, mem_first_occurrences. reflexivity.
    + apply add_question_merged; assumption.
Qed.

Lemma json_restructure_invariant (rows : list Row) (out : list Questionnaire) :
  json_restructure rows = Return out ->
  map title out = first_occurrences (map questionnaire_title rows) /\
  merged rows out.
Proof.
  unfold json_restructure.
  destruct (for_i rows ([], None)) as [[d rj]|e] eqn:E; simpl; [|discriminate].
  intros [= <-]. eapply for_i_invariant, E.
Qed.

(** The question produced for a row is in the output, in the
    questionnaire that carries the title computed for the row. *)
Lemma produced_in_output (rows : list Row) (out : list Questionnaire) (r : Row) :
  json_restructure rows = Return out -> In r rows ->
  exists Q q, In Q out /\ title Q = questionnaire_title r /\
              In q (questions Q) /\ produced r q.
Proof.
  intros H Hin. apply json_restructure_invariant in H. destruct H as [Ht Hm].
  assert (Hq : In (questionnaire_title r) (map title out)).
  { rewrite Ht, first_occurrences_In. apply in_map, Hin. }
  apply in_map_iff in Hq. destruct Hq as (Q & EQ & HQ).
  assert (Hf : In r (filter (fun r' => String.eqb (questionnaire_title r') (title Q)) rows)).
  { apply filter_In. split; [exact Hin|]. rewrite EQ. apply String.eqb_refl. }
  destruct (Forall2_In_l _ _ _ _ (Hm Q HQ) Hf) as (q & Hq & Hp).
  exists Q, q. auto.
Qed.

Lemma for_i_throw (rows : list Row) (r : Row) :
  In r rows -> (forall st, exists e, loop_body st r = Throw e) ->
  forall st, exists e, for_i rows st = Throw e.
Proof.
  intros Hin Hr. induction rows as [|a rows IH]; [destruct Hin|].
  intros st. simpl. destruct Hin as [->|Hin].
  - destruct (Hr st) as (e & ->). simpl. eauto.
  - destruct (loop_body st a) as [st'|e]; simpl; [apply IH, Hin|eauto].
Qed.

Lemma loop_body_malformed (r : Row) (segs : list string) (seg : string) :
  Response_Type r <> "Text Entry" ->
  split_responses (Response_Options r) = Return segs ->
  In seg segs -> contains equals seg = false ->
  forall st, loop_body st r = Throw (TypeError "trim").
Proof.
  intros Ht Hs Hin Hno [d rj]. unfold loop_body.
  apply String.eqb_neq in Ht. rewrite Ht. cbn [negb bind].
  rewrite Hs. cbn [bind]. rewrite (for_j_throw segs seg Hin Hno). reflexivity.
Qed.

Lemma json_restructure_throw (rows : list Row) (r : Row) :
  In r rows -> (forall st, exists e, loop_body st r = Throw e) ->
  exists e, json_restructure rows = Throw e.
Proof.
  intros Hin Hr. unfold json_restructure.
  destruct (for_i_throw rows r Hin Hr ([], None)) as (e & ->).
  simpl. eauto.
Qed.

Lemma loop_body_text_options (r : Row) (o : option string) :
  Response_Type r = "Text Entry" ->
  forall st, loop_body st (with_Response_Options o r) = loop_body st r.
Proof.
  intros Ht [d rj]. unfold loop_body. cbn [with_Response_Options Response_Type].
  rewrite Ht. reflexivity.
Qed.

Lemma for_i_same (l1 l2 : list Row) :
  Forall2 same_up_to_text_options l1 l2 ->
  forall st, for_i l1 st = for_i l2 st.
Proof.
  induction 1 as [|r1 r2 l1 l2 Hr _ IH]; intros st; [reflexivity|].
  cbn [for_i].
  assert (E : loop_body st r2 = loop_body st r1).
  { destruct Hr as [->|(Ht & o & ->)]; [reflexivity|].
    apply loop_body_text_options, Ht. }
  rewrite E. destruct (loop_body st r1); cbn [bind]; auto.
Qed.

Lemma sample_run : json_restructure sample_rows = Return sample_out.
Proof. reflexivity. Qed.

(** A row that is not "Text Entry" and has the empty string as
    Response Options makes every run throw: no question is produced
    for it. *)
Lemma empty_options_always_throw (rows : list Row) (r : Row) :
  In r rows -> Response_Type r <> "Text Entry" -> Response_Options r = Some "" ->
  (forall q, ~ produced r q) /\ exists e, json_restructure rows = Throw e.
Proof.
  intros Hin Ht Ho.
  assert (Hb : forall st, loop_body st r = Throw (TypeError "trim")).
  { apply (loop_body_malformed r [""] ""); auto.
    - rewrite Ho. reflexivity.
    - left. reflexivity. }
  split.
  - intros q Hq. destruct (Hq [] None) as (rj & E). rewrite Hb in E. discriminate.
  - apply (json_restructure_throw rows r Hin). intros st. rewrite Hb. eauto.
Qed.

(* ================================================================== *)
(** ** The claims *)
(* ================================================================== *)

(** C1 (what the code does on the input of the claim).  A row of type
    "Single Choice" whose Response Options is the empty string: both
    splits give the one segment [""], which has no second part, and
    the transform throws a TypeError instead of returning a Question
    without rows. *)
Theorem empty_options_throw :
  split LF "" = [""] /\
  split_responses (Some "") = Return [""] /\
  response_option "" = Throw (TypeError "trim") /\
  json_restructure [row "PHQ9" "PHQ9" "How?" "Single Choice" (Some "")] =
  Throw (TypeError "trim").
Proof. repeat split; reflexivity. Qed.

(** C2, amended.  If a row that is not "Text Entry" has a segment
    without "=", its iteration throws the TypeError of reading [trim]
    of [undefined], whatever the segment, the row and the state, and
    the transform throws: no partial Option is returned. *)
Theorem malformed_segment_throws (rows : list Row) (r : Row)
    (segs : list string) (seg : string) :
  In r rows ->
  Response_Type r <> "Text Entry" ->
  split_responses (Response_Options r) = Return segs ->
  In seg segs ->
  contains equals seg = false ->
  (forall st, loop_body st r = Throw (TypeError "trim")) /\
  (exists e, json_restructure rows = Throw e).
Proof.
  intros Hin Ht Hs Hseg Hno.
  pose proof (loop_body_malformed r segs seg Ht Hs Hseg Hno) as Hb.
  split; [exact Hb|].
  apply (json_restructure_throw rows r Hin).
  intros st. rewrite Hb. eauto.
Qed.

Lemma malformed_segment_throws_witness :
  In bad_row [bad_row] /\
  Response_Type bad_row <> "Text Entry" /\
  split_responses (Response_Options bad_row) = Return ["1-Yes"] /\
  In "1-Yes" ["1-Yes"] /\
  contains equals "1-Yes" = false /\
  ((forall st, loop_body st bad_row = Throw (TypeError "trim")) /\
   (exists e, json_restructure [bad_row] = Throw e)).
Proof.
  assert (H1 : In bad_row [bad_row]) by (left; reflexivity).
  assert (H2 : Response_Type bad_row <> "Text Entry") by discriminate.
  assert (H3 : split_responses (Response_Options bad_row) = Return ["1-Yes"])
    by reflexivity.
  assert (H4 : In "1-Yes" ["1-Yes"]) by (left; reflexivity).
  assert (H5 : contains equals "1-Yes" = false) by reflexivity.
  repeat (split; [assumption|]).
  exact (malformed_segment_throws [bad_row] bad_row ["1-Yes"] "1-Yes" H1 H2 H3 H4 H5).
Defined.

(** C2, as stated, fails: the exception does not identify the segment
    or the row.  Two inputs whose offending segments differ, and two
    inputs whose offending rows differ, throw the same exception. *)
Lemma malformed_segment_not_identified :
  Response_Options bad_row <> Response_Options bad_row' /\
  json_restructure [bad_row] = Throw (TypeError "trim") /\
  json_restructure [bad_row'] = Throw (TypeError "trim") /\
  json_restructure [bad_row; good_row] = Throw (TypeError "trim") /\
  json_restructure [good_row; bad_row] = Throw (TypeError "trim").
Proof. repeat split; try reflexivity. discriminate. Qed.

(** C3, amended.  For a segment with at least one "=", the Option has
    [value] the trimmed text before the first "=" and [text] the
    trimmed text between the first "=" and the next one (or the end of
    the segment); with exactly one "=", [text] is all that follows
    it. *)
Theorem option_of_segment (seg : string) :
  contains equals seg = true ->
  response_option seg =
    Return {| text := trim (before_first equals (after_first equals seg));
              value := trim (before_first equals seg) |} /\
  (contains equals (after_first equals seg) = false ->
   response_option seg =
     Return {| text := trim (after_first equals seg);
               value := trim (before_first equals seg) |}).
Proof.
  intros H. rewrite response_option_eq, H. split; [reflexivity|].
  intros H1. rewrite before_first_no_sep by exact H1. reflexivity.
Qed.

Lemma option_of_segment_witness :
  contains equals " 0 = Not at all " = true /\
  (response_option " 0 = Not at all " =
     Return {| text := trim (before_first equals (after_first equals " 0 = Not at all "));
               value := trim (before_first equals " 0 = Not at all ") |} /\
   (contains equals (after_first equals " 0 = Not at all ") = false ->
    response_option " 0 = Not at all " =
      Return {| text := trim (after_first equals " 0 = Not at all ");
                value := trim (before_first equals " 0 = Not at all ") |})).
Proof.
  split; [reflexivity|].
  apply (option_of_segment " 0 = Not at all "). reflexivity.
Defined.

(** C3, as stated, fails at "1=a=b": the text is "a", not everything
    after the first "=", which is "a=b". *)
Lemma option_text_stops_at_second_equals :
  contains equals "1=a=b" = true /\
  trim (after_first equals "1=a=b") = "a=b" /\
  response_option "1=a=b" = Return {| text := "a"; value := "1" |} /\
  response_option "1=a=b" <>
    Return {| text := trim (after_first equals "1=a=b");
              value := trim (before_first equals "1=a=b") |}.
Proof. repeat split; try reflexivity. discriminate. Qed.

(** C4.  When the transform returns, the titles of the output are
    pairwise different; they are the computed titles of the rows in
    order of first appearance; there are as many questionnaires as
    distinct computed titles; and each questionnaire holds, in row
    order, the questions produced for all the rows with its title. *)
Theorem titles_unique (rows : list Row) (out : list Questionnaire) :
  json_restructure rows = Return out ->
  NoDup (map title out) /\
  map title out = first_occurrences (map questionnaire_title rows) /\
  List.length out =
    List.length (nodup string_dec (map questionnaire_title rows)) /\
  merged rows out.
Proof.
  intros H. apply json_restructure_invariant in H. destruct H as [Ht Hm].
  repeat split.
  - rewrite Ht. apply first_occurrences_NoDup.
  - exact Ht.
  - rewrite <- first_occurrences_length, <- Ht. symmetry. apply length_map.
  - exact Hm.
Qed.

Lemma titles_unique_witness :
  json_restructure sample_rows = Return sample_out /\
  (NoDup (map title sample_out) /\
   map title sample_out = first_occurrences (map questionnaire_title sample_rows) /\
   List.length sample_out =
     List.length (nodup string_dec (map questionnaire_title sample_rows)) /\
   merged sample_rows sample_out).
Proof.
  split; [reflexivity|].
  apply (titles_unique sample_rows sample_out). reflexivity.
Defined.

(** C5.  For a row of type "Text Entry": the question produced for it
    has no rows field; the iteration does not read Response Options
    (replacing the field by anything, or removing it, changes nothing);
    a question is produced as soon as Question Group Instruction is
    there; and in a returned output the question of the row is found
    without rows. *)
Theorem text_entry_no_rows (r : Row) :
  Response_Type r = "Text Entry" ->
  (forall q, produced r q -> q_rows q = None) /\
  (forall o st, loop_body st (with_Response_Options o r) = loop_body st r) /\
  (forall g, Question_Group_Instruction r = Some g -> exists q, produced r q) /\
  (forall rows out, json_restructure rows = Return out -> In r rows ->
     exists Q q, In Q out /\ In q (questions Q) /\ produced r q /\ q_rows q = None).
Proof.
  intros Ht. repeat split.
  - intros q Hq. apply (produced_text_entry r q Ht Hq).
  - intros o st. apply loop_body_text_options, Ht.
  - intros g Hg.
    assert (E : exists q rj, row_result None r = Return (q, rj)).
    { unfold row_result, compute_question_title. rewrite Ht, Hg. cbn.
      destruct (String.length (trim g)); cbn; eauto. }
    destruct E as (q & rj & E). exists q.
    eapply row_result_produced, E.
  - intros rows out H Hin.
    destruct (produced_in_output rows out r H Hin) as (Q & q & HQ & _ & Hq & Hp).
    exists Q, q. repeat split; auto. apply (produced_text_entry r q Ht Hp).
Qed.

Lemma text_entry_no_rows_witness :
  Response_Type (row "PHQ9" "PHQ9" "Why" "Text Entry" None) = "Text Entry" /\
  produced (row "PHQ9" "PHQ9" "Why" "Text Entry" None)
    {| q_title := "Why"; q_type := str "text"; q_rows := None;
       q_variable_name := "q" |} /\
  (forall o st,
     loop_body st (with_Response_Options o (row "PHQ9" "PHQ9" "Why" "Text Entry" None)) =
     loop_body st (row "PHQ9" "PHQ9" "Why" "Text Entry" None)).
Proof.
  split; [reflexivity|]. split.
  - intros d rj. exists rj. reflexivity.
  - apply (text_entry_no_rows (row "PHQ9" "PHQ9" "Why" "Text Entry" None)).
    reflexivity.
Defined.

(** C6.  The computed title is the Name when Name and Abbreviation are
    equal, and otherwise the Abbreviation, a space and the Name in
    parentheses; it is the title of the questionnaire that receives
    the question of the row.  Name "Patient Health Questionnaire" with
    Abbreviation "PHQ9" gives "PHQ9 (Patient Health Questionnaire)". *)
Theorem computed_title (r : Row) :
  (Questionnaire_Name r = Questionnaire_Abbreviation r ->
   questionnaire_title r = Questionnaire_Name r) /\
  (Questionnaire_Name r <> Questionnaire_Abbreviation r ->
   questionnaire_title r =
   Questionnaire_Abbreviation r ++ " (" ++ Questionnaire_Name r ++ ")") /\
  (forall rows out, json_restructure rows = Return out -> In r rows ->
     exists Q q, In Q out /\ title Q = questionnaire_title r /\
                 In q (questions Q) /\ produced r q) /\
  questionnaire_title (row "Patient Health Questionnaire" "PHQ9" "Why" "Text Entry" None) =
  "PHQ9 (Patient Health Questionnaire)".
Proof.
  unfold questionnaire_title. repeat split.
  - intros E. apply String.eqb_eq in E. rewrite E. reflexivity.
  - intros N. apply String.eqb_neq in N. rewrite N. reflexivity.
  - intros rows out H Hin. apply (produced_in_output rows out r H Hin).
Qed.

Lemma computed_title_witness :
  Questionnaire_Name (row "Patient Health Questionnaire" "PHQ9" "Why" "Text Entry" None) <>
  Questionnaire_Abbreviation (row "Patient Health Questionnaire" "PHQ9" "Why" "Text Entry" None) /\
  In (row "Patient Health Questionnaire" "PHQ9" "Why" "Text Entry" None) sample_rows /\
  json_restructure sample_rows = Return sample_out /\
  questionnaire_title (row "Patient Health Questionnaire" "PHQ9" "Why" "Text Entry" None) =
  "PHQ9" ++ " (" ++ "Patient Health Questionnaire" ++ ")" /\
  exists Q q, In Q sample_out /\
    title Q = questionnaire_title (row "Patient Health Questionnaire" "PHQ9" "Why" "Text Entry" None) /\
    In q (questions Q) /\
    produced (row "Patient Health Questionnaire" "PHQ9" "Why" "Text Entry" None) q.
Proof.
  pose proof (computed_title (row "Patient Health Questionnaire" "PHQ9" "Why" "Text Entry" None))
    as (_ & H2 & H3 & _).
  assert (N : "Patient Health Questionnaire" <> "PHQ9") by discriminate.
  assert (I : In (row "Patient Health Questionnaire" "PHQ9" "Why" "Text Entry" None) sample_rows)
    by (right; left; reflexivity).
  repeat (split; [first [exact N | exact I | reflexivity | exact (H2 N)]|]).
  exact (H3 sample_rows sample_out eq_refl I).
Defined.

(** C7.  The option parser splits on newlines first and takes the
    split on commas exactly when the first split has fewer than 2
    elements, that is, when the string has no newline; the options of
    a row that is not "Text Entry" are parsed from these segments; and
    "1=Yes, 2=No" gives two options through the comma split. *)
Theorem newline_then_comma (s : string) :
  split_responses (Some s) =
    Return (if (List.length (split LF s) <? 2)%nat
            then split comma s else split LF s) /\
  (List.length (split LF s) <? 2)%nat = negb (contains LF s) /\
  (forall r q, Response_Type r <> "Text Entry" -> Response_Options r = Some s ->
     produced r q ->
     exists l,
       for_j (if (List.length (split LF s) <? 2)%nat
              then split comma s else split LF s) [] = Return l /\
       q_rows q = Some (Some l)) /\
  split_responses (Some "1=Yes, 2=No") = Return ["1=Yes"; " 2=No"] /\
  for_j ["1=Yes"; " 2=No"] [] =
    Return [ {| text := "Yes"; value := "1" |}; {| text := "No"; value := "2" |} ].
Proof.
  assert (E : split_responses (Some s) =
              Return (if (List.length (split LF s) <? 2)%nat
                      then split comma s else split LF s)).
  { rewrite split_responses_Some, split_length_lt_2.
    destruct (contains LF s); reflexivity. }
  repeat split.
  - exact E.
  - apply split_length_lt_2.
  - intros r q Ht Ho Hp.
    destruct (produced_not_text_entry r q Ht Hp) as (segs & l & Hs & Hj & _ & Hr & _).
    rewrite Ho, E in Hs. injection Hs as <-. eauto.
Qed.

Lemma newline_then_comma_witness :
  Response_Type (row "PHQ9" "PHQ9" "x" "Rating" (Some "1=Yes, 2=No")) <> "Text Entry" /\
  Response_Options (row "PHQ9" "PHQ9" "x" "Rating" (Some "1=Yes, 2=No")) =
    Some "1=Yes, 2=No" /\
  produced (row "PHQ9" "PHQ9" "x" "Rating" (Some "1=Yes, 2=No")) sample_q3 /\
  exists l,
    for_j (if (List.length (split LF "1=Yes, 2=No") <? 2)%nat
           then split comma "1=Yes, 2=No" else split LF "1=Yes, 2=No") [] = Return l /\
    q_rows sample_q3 = Some (Some l).
Proof.
  assert (H1 : Response_Type (row "PHQ9" "PHQ9" "x" "Rating" (Some "1=Yes, 2=No"))
               <> "Text Entry") by discriminate.
  assert (H3 : produced (row "PHQ9" "PHQ9" "x" "Rating" (Some "1=Yes, 2=No")) sample_q3).
  { intros d rj. eexists. reflexivity. }
  split; [exact H1|]. split; [reflexivity|]. split; [exact H3|].
  pose proof (newline_then_comma "1=Yes, 2=No") as (_ & _ & H & _).
  exact (H _ sample_q3 H1 eq_refl H3).
Defined.

(** The lookup on the four labels and on the strings that name
    neither a label nor a member of [Object.prototype]; its result is
    the type field of the Question in both shapes. *)
Lemma type_lookup :
  get question_types "Single Choice" = str "single_sel" /\
  get question_types "Image" = str "image_sel" /\
  get question_types "Multiple Choice" = str "multi_sel" /\
  get question_types "Text Entry" = str "text" /\
  (forall s, s <> "Single Choice" -> s <> "Image" -> s <> "Multiple Choice" ->
     s <> "Text Entry" -> ~ In s Object_prototype ->
     get question_types s = undefined) /\
  (forall test question_title r response_json,
     q_type (questions_responses test question_title question_types r response_json) =
     get question_types (Response_Type r)).
Proof.
  repeat split.
  - intros s H1 H2 H3 H4 Hp. unfold get, question_types, own.
    apply String.eqb_neq in H1, H2, H3, H4. rewrite H1, H2, H3, H4.
    apply mem_false in Hp. rewrite Hp. reflexivity.
  - intros test question_title r response_json. unfold questions_responses.
    destruct (truthy test); reflexivity.
Qed.

(** C8 (what the code does on a Response Type that names a member of
    [Object.prototype]).  "constructor" and "__proto__" are none of
    the four labels, yet the lookup does not give [undefined]: it
    finds the member that the object literal inherits, and that value
    becomes the type of the Question.  The four labels map as the
    claim says, and an ordinary unknown label such as "Rating" gives
    [undefined]. *)
Theorem type_lookup_inherited :
  get question_types "Single Choice" = str "single_sel" /\
  get question_types "Image" = str "image_sel" /\
  get question_types "Multiple Choice" = str "multi_sel" /\
  get question_types "Text Entry" = str "text" /\
  get question_types "Rating" = undefined /\
  "constructor" <> "Single Choice" /\ "constructor" <> "Image" /\
  "constructor" <> "Multiple Choice" /\ "constructor" <> "Text Entry" /\
  get question_types "constructor" = inherited "constructor" /\
  get question_types "__proto__" = inherited "__proto__" /\
  get question_types "constructor" <> undefined /\
  json_restructure [row "PHQ9" "PHQ9" "Why" "__proto__" (Some "1=Yes")] =
  Return
    [ {| activity_type := "survey"; mode := "basic"; frequency := "1";
         title := "PHQ9";
         questions :=
           [ {| q_title := "Why"; q_type := inherited "__proto__";
                q_rows := Some (Some [ {| text := "Yes"; value := "1" |} ]);
                q_variable_name := "q" |} ] |} ].
Proof. repeat split; try reflexivity; discriminate. Qed.

(** C9.  When the transform returns, the question produced for a row
    that is not "Text Entry" is in the output with a rows field that
    holds at least one Option, one per segment. *)
Theorem rows_present (rows : list Row) (out : list Questionnaire) (r : Row) :
  json_restructure rows = Return out ->
  In r rows ->
  Response_Type r <> "Text Entry" ->
  exists Q q o os,
    In Q out /\ title Q = questionnaire_title r /\ In q (questions Q) /\
    produced r q /\ q_rows q = Some (Some (o :: os)).
Proof.
  intros H Hin Ht.
  destruct (produced_in_output rows out r H Hin) as (Q & q & HQ & HT & Hq & Hp).
  destruct (produced_not_text_entry r q Ht Hp) as (segs & l & _ & _ & _ & Hr & Hl).
  destruct l as [|o os]; [congruence|].
  exists Q, q, o, os. auto.
Qed.

Lemma rows_present_witness :
  json_restructure sample_rows = Return sample_out /\
  In (row "PHQ9" "PHQ9" "x" "Rating" (Some "1=Yes, 2=No")) sample_rows /\
  Response_Type (row "PHQ9" "PHQ9" "x" "Rating" (Some "1=Yes, 2=No")) <> "Text Entry" /\
  exists Q q o os,
    In Q sample_out /\
    title Q = questionnaire_title (row "PHQ9" "PHQ9" "x" "Rating" (Some "1=Yes, 2=No")) /\
    In q (questions Q) /\
    produced (row "PHQ9" "PHQ9" "x" "Rating" (Some "1=Yes, 2=No")) q /\
    q_rows q = Some (Some (o :: os)).
Proof.
  assert (I : In (row "PHQ9" "PHQ9" "x" "Rating" (Some "1=Yes, 2=No")) sample_rows)
    by (right; right; left; reflexivity).
  assert (N : Response_Type (row "PHQ9" "PHQ9" "x" "Rating" (Some "1=Yes, 2=No"))
              <> "Text Entry") by discriminate.
  split; [reflexivity|]. split; [exact I|]. split; [exact N|].
  exact (rows_present sample_rows sample_out _ eq_refl I N).
Defined.

(** C10.  Two inputs that differ only in the Response Options of
    "Text Entry" rows (the field may also be missing) have the same
    result: the same output, or the same exception. *)
Theorem text_options_ignored (rows1 rows2 : list Row) :
  Forall2 same_up_to_text_options rows1 rows2 ->
  json_restructure rows1 = json_restructure rows2.
Proof.
  intros H. unfold json_restructure. rewrite (for_i_same rows1 rows2 H).
  reflexivity.
Qed.

Lemma text_options_ignored_witness :
  Forall2 same_up_to_text_options
    sample_rows
    [ row "PHQ9" "PHQ9" " How? " "Single Choice" (Some two_lines);
      row "Patient Health Questionnaire" "PHQ9" "Why" "Text Entry" (Some "1-Yes");
      row "PHQ9" "PHQ9" "x" "Rating" (Some "1=Yes, 2=No") ] /\
  json_restructure sample_rows =
  json_restructure
    [ row "PHQ9" "PHQ9" " How? " "Single Choice" (Some two_lines);
      row "Patient Health Questionnaire" "PHQ9" "Why" "Text Entry" (Some "1-Yes");
      row "PHQ9" "PHQ9" "x" "Rating" (Some "1=Yes, 2=No") ].
Proof.
  assert (H : Forall2 same_up_to_text_options
    sample_rows
    [ row "PHQ9" "PHQ9" " How? " "Single Choice" (Some two_lines);
      row "Patient Health Questionnaire" "PHQ9" "Why" "Text Entry" (Some "1-Yes");
      row "PHQ9" "PHQ9" "x" "Rating" (Some "1=Yes, 2=No") ]).
  { constructor; [left; reflexivity|].
    constructor; [right; split; [reflexivity|exists (Some "1-Yes"); reflexivity]|].
    constructor; [left; reflexivity|]. constructor. }
  split; [exact H|]. exact (text_options_ignored _ _ H).
Defined.

(* ================================================================== *)
(** ** Further properties of [json_restructure] *)
(* ================================================================== *)

Lemma compute_question_title_eq (r : Row) :
  compute_question_title r =
  match Question_Group_Instruction r with
  | None => Throw (TypeError "trim")
  | Some g =>
      Return (if (0 <? String.length (trim g))%nat
              then trim g ++ ": " ++ trim (Question r)
              else trim (Question r))
  end.
Proof.
  unfold compute_question_title. cbn [trim_of bind].
  destruct (Question_Group_Instruction r) as [g|]; cbn [trim_of bind]; [|reflexivity].
  destruct (0 <? String.length (trim g))%nat; reflexivity.
Qed.

Lemma length_0_empty (s : string) : (0 <? String.length s)%nat = false <-> s = "".
Proof.
  destruct s; cbn; split; intros H; congruence.
Qed.

(** The question of a row, when there is one, in terms of the row. *)
Lemma produced_shape (r : Row) (q : Question_t) :
  produced r q ->
  exists g (responses : list string) rj,
    Question_Group_Instruction r = Some g /\
    q = questions_responses (List.length responses)
          (if (0 <? String.length (trim g))%nat
           then trim g ++ ": " ++ trim (Question r)
           else trim (Question r))
          question_types r rj.
Proof.
  intros H. apply produced_row_result in H. destruct H as (rj1 & E).
  unfold row_result in E. rewrite compute_question_title_eq in E.
  destruct (negb (Response_Type r =? "Text Entry")).
  - destruct (split_responses (Response_Options r)) as [segs|e]; cbn [bind] in E;
      [|discriminate].
    destruct (for_j segs []) as [l|e]; cbn [bind] in E; [|discriminate].
    destruct (Question_Group_Instruction r) as [g|]; cbn [bind] in E; [|discriminate].
    injection E as <- _. exists g, segs, (Some l). auto.
  - cbn [bind] in E.
    destruct (Question_Group_Instruction r) as [g|]; cbn [bind] in E; [|discriminate].
    injection E as <- _. exists g, [], None. auto.
Qed.

(** X1.  The title of the question of a row is the trimmed Question,
    preceded by the trimmed Question Group Instruction and ": " when
    that instruction is not empty after trimming. *)
Theorem question_title_rule (r : Row) (g : string) (q : Question_t) :
  Question_Group_Instruction r = Some g ->
  produced r q ->
  (trim g = "" -> q_title q = trim (Question r)) /\
  (trim g <> "" -> q_title q = trim g ++ ": " ++ trim (Question r)).
Proof.
  intros Hg Hp.
  destruct (produced_shape r q Hp) as (g' & responses & rj & Hg' & ->).
  assert (g' = g) by congruence. subst g'.
  assert (T : q_title (questions_responses (List.length responses)
                 (if (0 <? String.length (trim g))%nat
                  then trim g ++ ": " ++ trim (Question r)
                  else trim (Question r)) question_types r rj) =
              if (0 <? String.length (trim g))%nat
              then trim g ++ ": " ++ trim (Question r)
              else trim (Question r)).
  { unfold questions_responses. destruct (truthy (List.length responses)); reflexivity. }
  rewrite T. split; intros H.
  - rewrite H. reflexivity.
  - destruct (0 <? String.length (trim g))%nat eqn:E; [reflexivity|].
    apply length_0_empty in E. contradiction.
Qed.

Lemma question_title_rule_witness :
  Question_Group_Instruction intro_row = Some " Intro " /\
  produced intro_row
    {| q_title := "Intro: How are you?"; q_type := str "text"; q_rows := None;
       q_variable_name := " q1 " |} /\
  trim " Intro " <> "" /\
  "Intro: How are you?" = trim " Intro " ++ ": " ++ trim (Question intro_row).
Proof.
  assert (Hp : produced intro_row
    {| q_title := "Intro: How are you?"; q_type := str "text"; q_rows := None;
       q_variable_name := " q1 " |}).
  { intros d rj. exists rj. reflexivity. }
  assert (N : trim " Intro " <> "") by discriminate.
  split; [reflexivity|]. split; [exact Hp|]. split; [exact N|].
  exact (proj2 (question_title_rule intro_row " Intro " _ eq_refl Hp) N).
Defined.

Lemma loop_body_no_instruction (r : Row) :
  Question_Group_Instruction r = None ->
  forall st, exists e, loop_body st r = Throw e.
Proof.
  intros Hg [d rj]. rewrite loop_body_row_result. unfold row_result.
  rewrite compute_question_title_eq, Hg.
  destruct (negb (Response_Type r =? "Text Entry")).
  - destruct (split_responses (Response_Options r)) as [segs|e]; cbn [bind]; [|eauto].
    destruct (for_j segs []) as [l|e]; cbn [bind]; eauto.
  - cbn [bind]. eauto.
Qed.

(** X2.  A row without the Question Group Instruction column makes the
    transform throw, whatever its Response Type: no question is
    produced for it, and for a "Text Entry" row the exception is the
    TypeError of reading [trim]. *)
Theorem missing_instruction_throws (rows : list Row) (r : Row) :
  In r rows ->
  Question_Group_Instruction r = None ->
  (exists e, json_restructure rows = Throw e) /\
  (forall q, ~ produced r q) /\
  (Response_Type r = "Text Entry" ->
   forall st, loop_body st r = Throw (TypeError "trim")).
Proof.
  intros Hin Hg. repeat split.
  - apply (json_restructure_throw rows r Hin), loop_body_no_instruction, Hg.
  - intros q Hq. destruct (produced_shape r q Hq) as (g & _ & _ & Hg' & _). congruence.
  - intros Ht [d rj]. rewrite loop_body_row_result. unfold row_result.
    rewrite compute_question_title_eq, Hg, Ht. reflexivity.
Qed.

Lemma missing_instruction_throws_witness :
  In no_instruction_row [good_row; no_instruction_row] /\
  Question_Group_Instruction no_instruction_row = None /\
  json_restructure [good_row; no_instruction_row] = Throw (TypeError "trim") /\
  exists e, json_restructure [good_row; no_instruction_row] = Throw e.
Proof.
  assert (I : In no_instruction_row [good_row; no_instruction_row])
    by (right; left; reflexivity).
  split; [exact I|]. split; [reflexivity|]. split; [reflexivity|].
  exact (proj1 (missing_instruction_throws _ no_instruction_row I eq_refl)).
Defined.

(** X3.  A row that is not "Text Entry" and has no Response Options
    column makes the transform throw: its iteration throws the
    TypeError of reading [split], in any state. *)
Theorem missing_options_throw (rows : list Row) (r : Row) :
  In r rows ->
  Response_Type r <> "Text Entry" ->
  Response_Options r = None ->
  (forall st, loop_body st r = Throw (TypeError "split")) /\
  (exists e, json_restructure rows = Throw e).
Proof.
  intros Hin Ht Ho.
  assert (Hb : forall st, loop_body st r = Throw (TypeError "split")).
  { intros [d rj]. unfold loop_body. apply String.eqb_neq in Ht.
    rewrite Ht, Ho. reflexivity. }
  split; [exact Hb|].
  apply (json_restructure_throw rows r Hin). intros st. rewrite Hb. eauto.
Qed.

Lemma missing_options_throw_witness :
  In no_options_row [no_options_row] /\
  Response_Type no_options_row <> "Text Entry" /\
  Response_Options no_options_row = None /\
  (forall st, loop_body st no_options_row = Throw (TypeError "split")) /\
  (exists e, json_restructure [no_options_row] = Throw e).
Proof.
  assert (I : In no_options_row [no_options_row]) by (left; reflexivity).
  assert (N : Response_Type no_options_row <> "Text Entry") by discriminate.
  split; [exact I|]. split; [exact N|]. split; [reflexivity|].
  exact (missing_options_throw _ no_options_row I N eq_refl).
Defined.



Lemma split_responses_segments (s : string) :
  split_responses (Some s) = Return (segments s).
Proof. apply split_responses_Some. Qed.







Lemma add_question_constants (t : string) (q : Question_t) (d : list Questionnaire) :
  Forall (fun Q => activity_type Q = "survey" /\ mode Q = "basic" /\ frequency Q = "1") d ->
  Forall (fun Q => activity_type Q = "survey" /\ mode Q = "basic" /\ frequency Q = "1")
    (add_question t q d).
Proof.
  intros H. unfold add_question.
  destruct (find (questionnaire_exists t) d).
  - induction H as [|Q d HQ Hd IH]; simpl; [constructor|].
    destruct (questionnaire_exists t Q); constructor; auto.
  - apply Forall_app. split; [exact H|]. repeat constructor.
Qed.

Lemma for_i_constants (rows : list Row) :
  forall d rj d' rj',
  for_i rows (d, rj) = Return (d', rj') ->
  Forall (fun Q => activity_type Q = "survey" /\ mode Q = "basic" /\ frequency Q = "1") d ->
  Forall (fun Q => activity_type Q = "survey" /\ mode Q = "basic" /\ frequency Q = "1") d'.
Proof.
  induction rows as [|r rows IH]; intros d rj d' rj'; cbn [for_i].
  - intros [= <- <-]. auto.
  - destruct (loop_body (d, rj) r) as [[d1 rj1]|e] eqn:E; cbn [bind]; [|discriminate].
    intros H Hd. apply loop_body_produced in E. destruct E as (q & _ & ->).
    apply (IH _ _ _ _ H). apply add_question_constants, Hd.
Qed.

(** X5.  Every questionnaire of the output has activity_type "survey",
    mode "basic" and frequency "1". *)
Theorem output_constants (rows : list Row) (out : list Questionnaire) :
  json_restructure rows = Return out ->
  forall Q, In Q out ->
    activity_type Q = "survey" /\ mode Q = "basic" /\ frequency Q = "1".
Proof.
  unfold json_restructure.
  destruct (for_i rows ([], None)) as [[d rj]|e] eqn:E; cbn [bind]; [|discriminate].
  intros [= <-]. apply Forall_forall.
  apply (for_i_constants rows [] None d rj E). constructor.
Qed.

Lemma output_constants_witness :
  json_restructure sample_rows = Return sample_out /\
  forall Q, In Q sample_out ->
    activity_type Q = "survey" /\ mode Q = "basic" /\ frequency Q = "1".
Proof.
  split; [reflexivity|]. apply (output_constants sample_rows sample_out). reflexivity.
Defined.

Lemma total_questions_app (d1 d2 : list Questionnaire) :
  total_questions (d1 ++ d2) = total_questions d1 + total_questions d2.
Proof.
  unfold total_questions. rewrite map_app, list_sum_app. reflexivity.
Qed.

Lemma push_question_total (t : string) (q : Question_t) (d : list Questionnaire) :
  find (questionnaire_exists t) d <> None ->
  total_questions (push_question t q d) = S (total_questions d).
Proof.
  induction d as [|Q d IH]; simpl; [congruence|].
  destruct (questionnaire_exists t Q); intros H.
  - unfold total_questions. simpl. rewrite length_app. simpl. lia.
  - unfold total_questions in *. simpl. rewrite (IH H). lia.
Qed.

Lemma add_question_total (t : string) (q : Question_t) (d : list Questionnaire) :
  total_questions (add_question t q d) = S (total_questions d).
Proof.
  unfold add_question.
  destruct (find (questionnaire_exists t) d) eqn:E.
  - apply push_question_total. congruence.
  - rewrite total_questions_app. unfold total_questions at 2. simpl. lia.
Qed.

Lemma for_i_total (rows : list Row) :
  forall d rj d' rj',
  for_i rows (d, rj) = Return (d', rj') ->
  total_questions d' = total_questions d + List.length rows.
Proof.
  induction rows as [|r rows IH]; intros d rj d' rj'; cbn [for_i].
  - intros [= <- <-]. simpl. lia.
  - destruct (loop_body (d, rj) r) as [[d1 rj1]|e] eqn:E; cbn [bind]; [|discriminate].
    intros H. apply loop_body_produced in E. destruct E as (q & _ & ->).
    rewrite (IH _ _ _ _ H), add_question_total. simpl. lia.
Qed.

(** X6.  The output holds exactly one question per input row, and no
    questionnaire of the output is without questions. *)
Theorem one_question_per_row (rows : list Row) (out : list Questionnaire) :
  json_restructure rows = Return out ->
  total_questions out = List.length rows /\
  forall Q, In Q out -> questions Q <> [].
Proof.
  intros H. split.
  - unfold json_restructure in H.
    destruct (for_i rows ([], None)) as [[d rj]|e] eqn:E; cbn [bind] in H; [|discriminate].
    injection H as <-. apply (for_i_total rows [] None d rj E).
  - intros Q HQ. apply json_restructure_invariant in H. destruct H as [Ht Hm].
    assert (Hin : In (title Q) (map questionnaire_title rows)).
    { rewrite <- first_occurrences_In, <- Ht. apply in_map, HQ. }
    apply in_map_iff in Hin. destruct Hin as (r & Hr & Hrows).
    assert (Hf : In r (filter (fun r' => String.eqb (questionnaire_title r') (title Q)) rows)).
    { apply filter_In. split; [exact Hrows|]. rewrite Hr. apply String.eqb_refl. }
    destruct (Forall2_In_l _ _ _ _ (Hm Q HQ) Hf) as (q & Hq & _).
    intros E. rewrite E in Hq. destruct Hq.
Qed.

Lemma one_question_per_row_witness :
  json_restructure sample_rows = Return sample_out /\
  total_questions sample_out = List.length sample_rows /\
  forall Q, In Q sample_out -> questions Q <> [].
Proof.
  split; [reflexivity|]. apply (one_question_per_row sample_rows sample_out). reflexivity.
Defined.

Lemma split_length (sep : ascii) (s : string) :
  List.length (split sep s) = S (count_char sep s).
Proof.
  induction s as [|c r IH]; simpl; [reflexivity|].
  destruct (Ascii.eqb c sep); simpl; [rewrite IH; reflexivity|].
  destruct (split_cons sep r) as (h & t & E). rewrite E in *. simpl in *. exact IH.
Qed.

(** X7.  The rows of the question of a row that is not "Text Entry"
    hold one Option per segment: one more than the number of newlines
    of Response Options or, when it has no newline, one more than the
    number of its commas. *)
Theorem rows_count (r : Row) (s : string) (q : Question_t) :
  Response_Type r <> "Text Entry" ->
  Response_Options r = Some s ->
  produced r q ->
  exists l, q_rows q = Some (Some l) /\
            List.length l =
            S (count_char (if contains LF s then LF else comma) s).
Proof.
  intros Ht Ho Hp.
  destruct (produced_not_text_entry r q Ht Hp) as (segs & l & Hs & _ & Hl & Hr & _).
  rewrite Ho, split_responses_segments in Hs. injection Hs as <-.
  exists l. split; [exact Hr|]. rewrite Hl. unfold segments.
  destruct (contains LF s); apply split_length.
Qed.

Lemma rows_count_witness :
  Response_Type (row "PHQ9" "PHQ9" "x" "Rating" (Some "1=Yes, 2=No")) <> "Text Entry" /\
  Response_Options (row "PHQ9" "PHQ9" "x" "Rating" (Some "1=Yes, 2=No")) =
    Some "1=Yes, 2=No" /\
  produced (row "PHQ9" "PHQ9" "x" "Rating" (Some "1=Yes, 2=No")) sample_q3 /\
  exists l, q_rows sample_q3 = Some (Some l) /\
            List.length l =
            S (count_char (if contains LF "1=Yes, 2=No" then LF else comma) "1=Yes, 2=No").
Proof.
  assert (N : Response_Type (row "PHQ9" "PHQ9" "x" "Rating" (Some "1=Yes, 2=No"))
              <> "Text Entry") by discriminate.
  assert (Hp : produced (row "PHQ9" "PHQ9" "x" "Rating" (Some "1=Yes, 2=No")) sample_q3).
  { intros d rj. eexists. reflexivity. }
  split; [exact N|]. split; [reflexivity|]. split; [exact Hp|].
  exact (rows_count _ "1=Yes, 2=No" sample_q3 N eq_refl Hp).
Defined.

Section ContainsFacts.

Variable c : ascii.

Lemma contains_trimStart (s : string) :
  contains c s = false -> contains c (trimStart s) = false.
Proof.
  induction s as [|a r IH]; simpl; [auto|].
  intros H. apply orb_false_iff in H. destruct H as [Ha Hr].
  destruct (is_white_space a); [auto|]. simpl. rewrite Ha, Hr. reflexivity.
Qed.

Lemma contains_trimEnd (s : string) :
  contains c s = false -> contains c (trimEnd s) = false.
Proof.
  induction s as [|a r IH]; simpl; [auto|].
  intros H. apply orb_false_iff in H. destruct H as [Ha Hr].
  specialize (IH Hr).
  destruct (trimEnd r) as [|b r'].
  - destruct (is_white_space a); simpl; [reflexivity|]. rewrite Ha. reflexivity.
  - cbn [contains]. cbn [contains] in IH. rewrite Ha, IH. reflexivity.
Qed.

Lemma contains_trim (s : string) :
  contains c s = false -> contains c (trim s) = false.
Proof.
  intros H. apply contains_trimEnd, contains_trimStart, H.
Qed.

Lemma contains_before_first (sep : ascii) (s : string) :
  contains c s = false -> contains c (before_first sep s) = false.
Proof.
  induction s as [|a r IH]; simpl; [auto|].
  intros H. apply orb_false_iff in H. destruct H as [Ha Hr].
  destruct (Ascii.eqb a sep); simpl; [reflexivity|]. rewrite Ha. auto.
Qed.

Lemma contains_after_first (sep : ascii) (s : string) :
  contains c s = false -> contains c (after_first sep s) = false.
Proof.
  induction s as [|a r IH]; simpl; [auto|].
  intros H. apply orb_false_iff in H. destruct H as [Ha Hr].
  destruct (Ascii.eqb a sep); auto.
Qed.

Lemma contains_before_first_self (s : string) :
  contains c (before_first c s) = false.
Proof.
  induction s as [|a r IH]; simpl; [reflexivity|].
  destruct (Ascii.eqb a c) eqn:E; simpl; [reflexivity|]. rewrite E. exact IH.
Qed.

Lemma contains_split (sep : ascii) (s x : string) :
  contains c s = false -> In x (split sep s) -> contains c x = false.
Proof.
  revert x. induction s as [|a r IH]; simpl; intros x H Hin.
  - destruct Hin as [<-|[]]. reflexivity.
  - apply orb_false_iff in H. destruct H as [Ha Hr].
    destruct (Ascii.eqb a sep).
    + destruct Hin as [<-|Hin]; [reflexivity|]. apply (IH x Hr Hin).
    + destruct (split_cons sep r) as (h & t & E). rewrite E in *.
      destruct Hin as [<-|Hin].
      * simpl. rewrite Ha. apply (IH h Hr). left. reflexivity.
      * apply (IH x Hr). right. exact Hin.
Qed.

Lemma contains_split_self (s x : string) :
  In x (split c s) -> contains c x = false.
Proof.
  revert x. induction s as [|a r IH]; simpl; intros x Hin.
  - destruct Hin as [<-|[]]. reflexivity.
  - destruct (Ascii.eqb a c) eqn:Ea.
    + destruct Hin as [<-|Hin]; [reflexivity|]. apply (IH x Hin).
    + destruct (split_cons c r) as (h & t & E). rewrite E in *.
      destruct Hin as [<-|Hin].
      * simpl. rewrite Ea. apply (IH h). left. reflexivity.
      * apply (IH x). right. exact Hin.
Qed.

End ContainsFacts.

Lemma segments_no_LF (s seg : string) :
  In seg (segments s) -> contains LF seg = false.
Proof.
  unfold segments. destruct (contains LF s) eqn:E; intros H.
  - apply (contains_split_self LF s seg H).
  - apply (contains_split LF comma s seg E H).
Qed.

Lemma response_option_clean (seg : string) (o : Option) :
  response_option seg = Return o ->
  contains equals (text o) = false /\ contains equals (value o) = false /\
  (contains LF seg = false ->
   contains LF (text o) = false /\ contains LF (value o) = false).
Proof.
  rewrite response_option_eq.
  destruct (contains equals seg); [|discriminate]. intros [= <-]. cbn [text value].
  repeat split.
  - apply contains_trim, contains_before_first_self.
  - apply contains_trim, contains_before_first_self.
  - apply contains_trim, contains_before_first, contains_after_first, H.
  - apply contains_trim, contains_before_first, H.
Qed.

Lemma for_j_Forall (P : Option -> Prop) (segs : list string) :
  (forall seg o, In seg segs -> response_option seg = Return o -> P o) ->
  forall acc l, for_j segs acc = Return l -> Forall P acc -> Forall P l.
Proof.
  induction segs as [|s rest IH]; intros HP acc l; cbn [for_j].
  - intros [= <-]. auto.
  - destruct (response_option s) as [o|e] eqn:E; cbn [bind]; [|discriminate].
    intros H Hacc. apply (IH (fun seg o' Hin => HP seg o' (or_intror Hin)) _ _ H).
    apply Forall_app. split; [exact Hacc|]. constructor; [|constructor].
    apply (HP s o); [left; reflexivity|exact E].
Qed.

(** The rows of a produced question are the options parsed from the
    segments of the Response Options of its row. *)
Lemma produced_rows (r : Row) (q : Question_t) (l : list Option) :
  produced r q -> q_rows q = Some (Some l) ->
  exists s, Response_Options r = Some s /\ for_j (segments s) [] = Return l.
Proof.
  intros Hp Hr.
  destruct (string_dec (Response_Type r) "Text Entry") as [Ht|Ht].
  - rewrite (produced_text_entry r q Ht Hp) in Hr. discriminate.
  - destruct (produced_not_text_entry r q Ht Hp) as (segs & l' & Hs & Hj & _ & Hr' & _).
    assert (l' = l) by congruence. subst l'.
    destruct (Response_Options r) as [s|]; [|discriminate].
    rewrite split_responses_segments in Hs. injection Hs as <-. eauto.
Qed.

(** X8.  No Option of a produced question has an "=" or a newline in
    its text or in its value. *)
Theorem options_without_separators (r : Row) (q : Question_t) (l : list Option) :
  produced r q ->
  q_rows q = Some (Some l) ->
  forall o, In o l ->
    contains equals (text o) = false /\ contains equals (value o) = false /\
    contains LF (text o) = false /\ contains LF (value o) = false.
Proof.
  intros Hp Hr. destruct (produced_rows r q l Hp Hr) as (s & _ & Hj).
  apply Forall_forall.
  apply (for_j_Forall _ (segments s)) with (acc := []); [|exact Hj|constructor].
  intros seg o Hin Ho.
  destruct (response_option_clean seg o Ho) as (H1 & H2 & H3).
  destruct (H3 (segments_no_LF s seg Hin)) as [H4 H5]. auto.
Qed.

Lemma options_without_separators_witness :
  produced (row "PHQ9" "PHQ9" " How? " "Single Choice" (Some two_lines)) sample_q1 /\
  q_rows sample_q1 =
    Some (Some [ {| text := "Not at all"; value := "0" |};
                 {| text := "Several days"; value := "1" |} ]) /\
  forall o, In o [ {| text := "Not at all"; value := "0" |};
                   {| text := "Several days"; value := "1" |} ] ->
    contains equals (text o) = false /\ contains equals (value o) = false /\
    contains LF (text o) = false /\ contains LF (value o) = false.
Proof.
  assert (Hp : produced (row "PHQ9" "PHQ9" " How? " "Single Choice" (Some two_lines))
                 sample_q1).
  { intros d rj. eexists. reflexivity. }
  split; [exact Hp|]. split; [reflexivity|].
  exact (options_without_separators _ sample_q1 _ Hp eq_refl).
Defined.

Lemma trimStart_head (s : string) :
  match trimStart s with
  | EmptyString => True
  | String a _ => is_white_space a = false
  end.
Proof.
  induction s as [|a r IH]; simpl; [exact I|].
  destruct (is_white_space a) eqn:E; [exact IH|exact E].
Qed.

Lemma trimEnd_cons (a : ascii) (r : string) :
  trimEnd (String a r) =
  match trimEnd r with
  | EmptyString => if is_white_space a then EmptyString else String a EmptyString
  | r' => String a r'
  end.
Proof. reflexivity. Qed.

Lemma trimEnd_idempotent (s : string) : trimEnd (trimEnd s) = trimEnd s.
Proof.
  induction s as [|a r IH]; [reflexivity|].
  rewrite trimEnd_cons.
  destruct (trimEnd r) as [|b r'] eqn:E.
  - destruct (is_white_space a) eqn:Ea; [reflexivity|].
    rewrite trimEnd_cons. cbn [trimEnd]. rewrite Ea. reflexivity.
  - rewrite trimEnd_cons, IH. reflexivity.
Qed.

Lemma trimStart_trimEnd (s : string) :
  match s with
  | EmptyString => True
  | String a _ => is_white_space a = false
  end ->
  trimStart (trimEnd s) = trimEnd s.
Proof.
  destruct s as [|a r]; simpl; [reflexivity|]. intros Ha.
  destruct (trimEnd r); [rewrite Ha|]; simpl; rewrite Ha; reflexivity.
Qed.

Lemma trim_idempotent (s : string) : trim (trim s) = trim s.
Proof.
  unfold trim. rewrite (trimStart_trimEnd (trimStart s) (trimStart_head s)).
  apply trimEnd_idempotent.
Qed.

(** X9.  The text and the value of every Option of a produced question
    are trimmed: trimming them again changes nothing. *)
Theorem options_trimmed (r : Row) (q : Question_t) (l : list Option) :
  produced r q ->
  q_rows q = Some (Some l) ->
  forall o, In o l -> trim (text o) = text o /\ trim (value o) = value o.
Proof.
  intros Hp Hr. destruct (produced_rows r q l Hp Hr) as (s & _ & Hj).
  apply Forall_forall.
  apply (for_j_Forall _ (segments s)) with (acc := []); [|exact Hj|constructor].
  intros seg o _ Ho. rewrite response_option_eq in Ho.
  destruct (contains equals seg); [|discriminate]. injection Ho as <-.
  cbn [text value]. split; apply trim_idempotent.
Qed.

Lemma options_trimmed_witness :
  produced (row "PHQ9" "PHQ9" "x" "Rating" (Some "1=Yes, 2=No")) sample_q3 /\
  q_rows sample_q3 =
    Some (Some [ {| text := "Yes"; value := "1" |}; {| text := "No"; value := "2" |} ]) /\
  forall o, In o [ {| text := "Yes"; value := "1" |}; {| text := "No"; value := "2" |} ] ->
    trim (text o) = text o /\ trim (value o) = value o.
Proof.
  assert (Hp : produced (row "PHQ9" "PHQ9" "x" "Rating" (Some "1=Yes, 2=No")) sample_q3).
  { intros d rj. eexists. reflexivity. }
  split; [exact Hp|]. split; [reflexivity|].
  exact (options_trimmed _ sample_q3 _ Hp eq_refl).
Defined.

Lemma grows_refl (Q : Questionnaire) : grows Q Q.
Proof.
  unfold grows. repeat split. exists []. rewrite app_nil_r. reflexivity.
Qed.

Lemma grows_trans (Q1 Q2 Q3 : Questionnaire) :
  grows Q1 Q2 -> grows Q2 Q3 -> grows Q1 Q3.
Proof.
  intros (A1 & M1 & F1 & T1 & m1 & E1) (A2 & M2 & F2 & T2 & m2 & E2).
  unfold grows. repeat split; try congruence.
  exists (m1 ++ m2)%list. rewrite E2, E1, app_assoc. reflexivity.
Qed.

Lemma Forall2_grows_refl (d : list Questionnaire) : Forall2 grows d d.
Proof. induction d; constructor; auto using grows_refl. Qed.

Lemma Forall2_grows_trans (d1 d2 d3 : list Questionnaire) :
  Forall2 grows d1 d2 -> Forall2 grows d2 d3 -> Forall2 grows d1 d3.
Proof.
  intros H. revert d3. induction H as [|Q1 Q2 d1 d2 HQ _ IH]; intros d3 H3.
  - inversion H3. constructor.
  - inversion H3 as [|Q2' Q3 d2' d3' HQ' Hd']; subst.
    constructor; [eapply grows_trans; eauto|apply IH, Hd'].
Qed.

Lemma extends_refl (d : list Questionnaire) : extends d d.
Proof.
  exists d, []. split; [rewrite app_nil_r; reflexivity|apply Forall2_grows_refl].
Qed.

Lemma extends_trans (d1 d2 d3 : list Questionnaire) :
  extends d1 d2 -> extends d2 d3 -> extends d1 d3.
Proof.
  intros (f1 & b1 & -> & H1) (f2 & b2 & -> & H2).
  apply Forall2_app_inv_l in H2. destruct H2 as (f2a & f2b & Ha & Hb & ->).
  exists f2a, (f2b ++ b2)%list. split; [rewrite app_assoc; reflexivity|].
  eapply Forall2_grows_trans; eauto.
Qed.

Lemma push_question_grows (t : string) (q : Question_t) (d : list Questionnaire) :
  Forall2 grows d (push_question t q d).
Proof.
  induction d as [|Q d IH]; simpl; [constructor|].
  destruct (questionnaire_exists t Q).
  - constructor; [|apply Forall2_grows_refl].
    unfold grows. cbn. repeat split. exists [q]. reflexivity.
  - constructor; [apply grows_refl|exact IH].
Qed.

Lemma add_question_extends (t : string) (q : Question_t) (d : list Questionnaire) :
  extends d (add_question t q d).
Proof.
  unfold add_question. destruct (find (questionnaire_exists t) d).
  - exists (push_question t q d), []. split; [rewrite app_nil_r; reflexivity|].
    apply push_question_grows.
  - eexists d, _. split; [reflexivity|apply Forall2_grows_refl].
Qed.

Lemma for_i_extends (rows : list Row) :
  forall d rj d' rj', for_i rows (d, rj) = Return (d', rj') -> extends d d'.
Proof.
  induction rows as [|r rows IH]; intros d rj d' rj'; cbn [for_i].
  - intros [= <- <-]. apply extends_refl.
  - destruct (loop_body (d, rj) r) as [[d1 rj1]|e] eqn:E; cbn [bind]; [|discriminate].
    intros H. apply loop_body_produced in E. destruct E as (q & _ & ->).
    eapply extends_trans; [apply add_question_extends|apply (IH _ _ _ _ H)].
Qed.

(** X10.  Rows added at the end of the input only add to the output:
    if the transform returns on [rows1 ++ rows2], it returns on
    [rows1], and the questionnaires of that output are still there, in
    the same places and with the same titles, their questions followed
    by the new ones; new questionnaires come after them. *)
Theorem more_rows_extend_output (rows1 rows2 : list Row) (out : list Questionnaire) :
  json_restructure (rows1 ++ rows2) = Return out ->
  exists out1, json_restructure rows1 = Return out1 /\ extends out1 out.
Proof.
  unfold json_restructure. rewrite for_i_app.
  destruct (for_i rows1 ([], None)) as [[d1 rj1]|e] eqn:E1; cbn [bind]; [|discriminate].
  destruct (for_i rows2 (d1, rj1)) as [[d rj]|e] eqn:E2; cbn [bind]; [|discriminate].
  intros [= <-]. exists d1. split; [reflexivity|].
  apply (for_i_extends rows2 d1 rj1 d rj E2).
Qed.

Lemma more_rows_extend_output_witness :
  json_restructure ([good_row] ++ sample_rows) =
    Return
      [ {| activity_type := "survey"; mode := "basic"; frequency := "1";
           title := "PHQ9";
           questions :=
             [ {| q_title := "How?"; q_type := str "single_sel";
                  q_rows := Some (Some [ {| text := "Yes"; value := "1" |} ]);
                  q_variable_name := "q" |};
               sample_q1; sample_q3 ] |};
        {| activity_type := "survey"; mode := "basic"; frequency := "1";
           title := "PHQ9 (Patient Health Questionnaire)";
           questions := [sample_q2] |} ] /\
  exists out1, json_restructure [good_row] = Return out1 /\
    extends out1
      [ {| activity_type := "survey"; mode := "basic"; frequency := "1";
           title := "PHQ9";
           questions :=
             [ {| q_title := "How?"; q_type := str "single_sel";
                  q_rows := Some (Some [ {| text := "Yes"; value := "1" |} ]);
                  q_variable_name := "q" |};
               sample_q1; sample_q3 ] |};
        {| activity_type := "survey"; mode := "basic"; frequency := "1";
           title := "PHQ9 (Patient Health Questionnaire)";
           questions := [sample_q2] |} ].
Proof.
  split; [reflexivity|].
  apply (more_rows_extend_output [good_row] sample_rows). reflexivity.
Defined.

(** X11.  The transform stops at the first row that throws: if it
    throws on [rows1], it throws the same exception on [rows1]
    followed by any rows. *)
Theorem throw_is_final (rows1 rows2 : list Row) (e : exception) :
  json_restructure rows1 = Throw e ->
  json_restructure (rows1 ++ rows2) = Throw e.
Proof.
  unfold json_restructure. rewrite for_i_app.
  destruct (for_i rows1 ([], None)) as [[d1 rj1]|e1]; cbn [bind]; [discriminate|].
  auto.
Qed.

Lemma throw_is_final_witness :
  json_restructure [no_options_row] = Throw (TypeError "split") /\
  json_restructure ([no_options_row] ++ [bad_row; good_row]) = Throw (TypeError "split").
Proof.
  split; [reflexivity|].
  apply (throw_is_final [no_options_row] [bad_row; good_row]). reflexivity.
Defined.

(** X12.  The question of a row has the Question Abbreviation of the
    row, unchanged, as its variable_name, and the lookup of the
    Response Type as its type; for a "Text Entry" row that type is
    "text". *)
Theorem question_type_and_name (r : Row) (q : Question_t) :
  produced r q ->
  q_variable_name q = Question_Abbreviation r /\
  q_type q = get question_types (Response_Type r) /\
  (Response_Type r = "Text Entry" -> q_type q = str "text").
Proof.
  intros Hp. destruct (produced_shape r q Hp) as (g & responses & rj & _ & ->).
  unfold questions_responses.
  destruct (truthy (List.length responses)); cbn [q_variable_name q_type];
    (split; [reflexivity|]); (split; [reflexivity|]); intros ->; reflexivity.
Qed.

Lemma question_type_and_name_witness :
  produced intro_row
    {| q_title := "Intro: How are you?"; q_type := str "text"; q_rows := None;
       q_variable_name := " q1 " |} /\
  " q1 " = Question_Abbreviation intro_row /\
  str "text" = get question_types (Response_Type intro_row).
Proof.
  assert (Hp : produced intro_row
    {| q_title := "Intro: How are you?"; q_type := str "text"; q_rows := None;
       q_variable_name := " q1 " |}).
  { intros d rj. exists rj. reflexivity. }
  split; [exact Hp|].
  pose proof (question_type_and_name intro_row _ Hp) as (H1 & H2 & _).
  split; [exact H1|exact H2].
Defined.

(** X13.  Grouping is by the computed title alone: a row whose Name and
    Abbreviation are both "<a> (<n>)" computes the same title as a row
    with Name [n] and a different Abbreviation [a], and in a returned
    output the questions of both rows are in the same questionnaire. *)
Theorem different_names_same_questionnaire (rows : list Row) (out : list Questionnaire)
    (r1 r2 : Row) :
  Questionnaire_Name r1 <> Questionnaire_Abbreviation r1 ->
  Questionnaire_Name r2 =
    Questionnaire_Abbreviation r1 ++ " (" ++ Questionnaire_Name r1 ++ ")" ->
  Questionnaire_Abbreviation r2 = Questionnaire_Name r2 ->
  json_restructure rows = Return out ->
  In r1 rows -> In r2 rows ->
  questionnaire_title r1 = questionnaire_title r2 /\
  exists Q q1 q2,
    In Q out /\ In q1 (questions Q) /\ In q2 (questions Q) /\
    produced r1 q1 /\ produced r2 q2.
Proof.
  intros N H2 H3 H I1 I2.
  assert (T : questionnaire_title r1 = questionnaire_title r2).
  { unfold questionnaire_title. apply String.eqb_neq in N. rewrite N.
    rewrite H3, String.eqb_refl. symmetry. exact H2. }
  split; [exact T|].
  apply json_restructure_invariant in H. destruct H as [Ht Hm].
  assert (Hq : In (questionnaire_title r1) (map title out)).
  { rewrite Ht, first_occurrences_In. apply in_map, I1. }
  apply in_map_iff in Hq. destruct Hq as (Q & EQ & HQ).
  assert (F1 : In r1 (filter (fun r' => String.eqb (questionnaire_title r') (title Q)) rows)).
  { apply filter_In. split; [exact I1|]. rewrite EQ. apply String.eqb_refl. }
  assert (F2 : In r2 (filter (fun r' => String.eqb (questionnaire_title r') (title Q)) rows)).
  { apply filter_In. split; [exact I2|]. rewrite EQ, T. apply String.eqb_refl. }
  destruct (Forall2_In_l _ _ _ _ (Hm Q HQ) F1) as (q1 & Hq1 & Hp1).
  destruct (Forall2_In_l _ _ _ _ (Hm Q HQ) F2) as (q2 & Hq2 & Hp2).
  exists Q, q1, q2. auto.
Qed.

Lemma different_names_same_questionnaire_witness :
  Questionnaire_Name merge_row1 <> Questionnaire_Abbreviation merge_row1 /\
  json_restructure [merge_row1; merge_row2] =
    Return
      [ {| activity_type := "survey"; mode := "basic"; frequency := "1";
           title := "PHQ9 (Patient Health Questionnaire)";
           questions :=
             [ sample_q2;
               {| q_title := "How"; q_type := str "text"; q_rows := None;
                  q_variable_name := "q" |} ] |} ] /\
  questionnaire_title merge_row1 = questionnaire_title merge_row2.
Proof.
  assert (N : Questionnaire_Name merge_row1 <> Questionnaire_Abbreviation merge_row1)
    by discriminate.
  assert (I1 : In merge_row1 [merge_row1; merge_row2]) by (left; reflexivity).
  assert (I2 : In merge_row2 [merge_row1; merge_row2]) by (right; left; reflexivity).
  split; [exact N|]. split; [reflexivity|].
  exact (proj1 (different_names_same_questionnaire [merge_row1; merge_row2] _
                  merge_row1 merge_row2 N eq_refl eq_refl eq_refl I1 I2)).
Defined.

(* ================================================================== *)
(** ** Properties of the file selector *)
(* ================================================================== *)

Lemma re_exec_total (s : string) : exists capture, re_exec s = Some capture.
Proof.
  induction s as [|c r IH]; [simpl; eauto|].
  cbn [re_exec]. destruct (re_match_here (String c r)); eauto.
Qed.

Lemma on_file_total (file : File) : exists effects, on_file file = Return effects.
Proof.
  unfold on_file. destruct (re_exec_total (name file)) as (capture & ->). eauto.
Qed.

(** X14.  The regular expression of the listener matches every file
    name, so [re.exec] never gives [null], and the listener never
    throws, whatever files are selected. *)
Theorem listener_never_throws (files : list File) :
  (forall file, In file files -> re_exec (name file) <> None) /\
  exists effects, on_change files = Return effects.
Proof.
  split.
  - intros file _. destruct (re_exec_total (name file)) as (capture & ->). discriminate.
  - induction files as [|file rest IH]; cbn [on_change]; [eauto|].
    destruct (on_file_total file) as (effects & ->).
    destruct IH as (effects' & ->). cbn [bind]. eauto.
Qed.

Lemma listener_never_throws_witness :
  In {| name := "README" |} [ {| name := "phq.csv" |}; {| name := "README" |} ] /\
  re_exec (name {| name := "README" |}) <> None /\
  exists effects,
    on_change [ {| name := "phq.csv" |}; {| name := "README" |} ] = Return effects.
Proof.
  assert (I : In {| name := "README" |} [ {| name := "phq.csv" |}; {| name := "README" |} ])
    by (right; left; reflexivity).
  pose proof (listener_never_throws [ {| name := "phq.csv" |}; {| name := "README" |} ])
    as [H1 H2].
  split; [exact I|]. split; [exact (H1 _ I)|exact H2].
Defined.


Lemma no_dot_app_dot (p e : string) : no_dot (p ++ "." ++ e) = false.
Proof.
  induction p as [|c p IH]; [reflexivity|].
  change (no_dot (String c p ++ "." ++ e))
    with (negb (Ascii.eqb c ".") && no_dot (p ++ "." ++ e)).
  rewrite IH. apply andb_false_r.
Qed.

Lemma re_exec_suffix (p e : string) :
  e <> "" -> no_dot e = true -> re_exec (p ++ "." ++ e) = Some (Some e).
Proof.
  intros Hne Hnd. induction p as [|c p IH].
  - cbn. apply String.eqb_neq in Hne. rewrite Hne, Hnd. reflexivity.
  - change (String c p ++ "." ++ e) with (String c (p ++ "." ++ e)).
    cbn [re_exec re_match_here]. rewrite no_dot_app_dot, !andb_false_r. exact IH.
Qed.

Lemma re_exec_capture (s e : string) :
  re_exec s = Some (Some e) ->
  e <> "" /\ no_dot e = true /\ exists p, s = p ++ "." ++ e.
Proof.
  induction s as [|c r IH]; [discriminate|].
  cbn [re_exec re_match_here].
  destruct (Ascii.eqb c "." && negb (r =? "") && no_dot r) eqn:E.
  - intros [= <-]. apply andb_true_iff in E. destruct E as [E Hnd].
    apply andb_true_iff in E. destruct E as [Hc Hne].
    apply Ascii.eqb_eq in Hc. subst c.
    apply negb_true_iff, String.eqb_neq in Hne.
    repeat split; auto. exists "". reflexivity.
  - intros H. destruct (IH H) as (Hne & Hnd & p & ->).
    repeat split; auto. exists (String c p). reflexivity.
Qed.

(** X15.  The extension that the listener reads is the text after the
    last dot of the file name, when there is a dot and that text is
    not empty; for every other name (no dot, or a dot at the end) it
    is [undefined]. *)
Theorem extension_is_last_suffix (s : string) :
  (forall e, re_exec s = Some (Some e) <->
             e <> "" /\ no_dot e = true /\ exists p, s = p ++ "." ++ e) /\
  (re_exec s = Some None <->
   ~ exists p e, e <> "" /\ no_dot e = true /\ s = p ++ "." ++ e).
Proof.
  assert (A : forall e, re_exec s = Some (Some e) <->
             e <> "" /\ no_dot e = true /\ exists p, s = p ++ "." ++ e).
  { intros e. split; [apply re_exec_capture|].
    intros (Hne & Hnd & p & ->). apply re_exec_suffix; assumption. }
  split; [exact A|]. split.
  - intros H (p & e & Hne & Hnd & Hs).
    assert (E : re_exec s = Some (Some e)) by (apply A; eauto). congruence.
  - intros H. destruct (re_exec_total s) as ([e|] & E); [|exact E].
    exfalso. apply H. apply A in E. destruct E as (Hne & Hnd & p & Hs). eauto.
Qed.

Lemma extension_is_last_suffix_witness :
  "gz" <> "" /\ no_dot "gz" = true /\ "phq.csv.gz" = "phq.csv" ++ "." ++ "gz" /\
  re_exec "phq.csv.gz" = Some (Some "gz").
Proof.
  assert (N : "gz" <> "") by discriminate.
  split; [exact N|]. split; [reflexivity|]. split; [reflexivity|].
  apply (proj1 (extension_is_last_suffix "phq.csv.gz") "gz").
  split; [exact N|]. split; [reflexivity|]. exists "phq.csv". reflexivity.
Defined.


Lemma on_file_eq (file : File) :
  on_file file =
  Return
    (match re_exec (name file) with
     | Some (Some e) =>
         [ console_log ("Ext: " ++ e);
           if String.eqb e "csv" then Papa_parse file
           else alert ("Please upload a CSV worksheet based on our template, not a "
                       ++ e ++ " file.") ]
     | _ =>
         [ console_log "Ext: undefined";
           alert "Please upload a CSV worksheet based on our template, not a undefined file." ]
     end).
Proof.
  unfold on_file. destruct (re_exec_total (name file)) as ([e|] & ->); [|reflexivity].
  cbn [to_string]. destruct (e =? "csv"); reflexivity.
Qed.

Lemma re_exec_csv (s : string) :
  re_exec s = Some (Some "csv") <-> exists p, s = p ++ ".csv".
Proof.
  split.
  - intros H. apply re_exec_capture in H. destruct H as (_ & _ & p & ->). eauto.
  - intros (p & ->). apply (re_exec_suffix p "csv"); [discriminate|reflexivity].
Qed.

Lemma on_file_parse (file file' : File) (effects : list effect) :
  on_file file = Return effects ->
  (In (Papa_parse file') effects <-> file' = file /\ exists p, name file = p ++ ".csv").
Proof.
  rewrite on_file_eq. intros [= <-]. rewrite <- re_exec_csv.
  destruct (re_exec (name file)) as [[e|]|].
  - destruct (String.eqb_spec e "csv") as [->|N]; simpl.
    + split.
      * intros [H|[H|[]]]; [discriminate|]. injection H as ->. auto.
      * intros [-> _]. auto.
    + split.
      * intros [H|[H|[]]]; discriminate.
      * intros [_ H]. congruence.
  - simpl. split; [intros [H|[H|[]]]; discriminate|intros [_ H]; discriminate].
  - simpl. split; [intros [H|[H|[]]]; discriminate|intros [_ H]; discriminate].
Qed.

Lemma on_file_alert (file : File) (effects : list effect) :
  on_file file = Return effects ->
  (~ exists p, name file = p ++ ".csv") ->
  exists ext, re_exec (name file) = Some ext /\
    In (alert ("Please upload a CSV worksheet based on our template, not a "
               ++ to_string ext ++ " file.")) effects.
Proof.
  rewrite on_file_eq. intros [= <-] H. rewrite <- re_exec_csv in H.
  destruct (re_exec_total (name file)) as (ext & E). exists ext. split; [exact E|].
  rewrite E. destruct ext as [e|]; [|right; left; reflexivity].
  destruct (String.eqb_spec e "csv") as [->|N]; [contradiction|].
  right. left. reflexivity.
Qed.

(** X16.  The listener hands a selected file to the CSV parser exactly
    when its name ends in ".csv"; for every other file it shows the
    alert that names the extension read ("undefined" when there is
    none), and it goes on with the files that follow. *)
Theorem parsed_iff_csv (files : list File) (effects : list effect) :
  on_change files = Return effects ->
  (forall file, In (Papa_parse file) effects <->
                In file files /\ exists p, name file = p ++ ".csv") /\
  (forall file, In file files -> (~ exists p, name file = p ++ ".csv") ->
     exists ext, re_exec (name file) = Some ext /\
       In (alert ("Please upload a CSV worksheet based on our template, not a "
                  ++ to_string ext ++ " file.")) effects).
Proof.
  revert effects. induction files as [|f rest IH]; intros effects; cbn [on_change].
  - intros [= <-]. split.
    + intros file. simpl. tauto.
    + intros file [].
  - destruct (on_file f) as [e1|x] eqn:E1; cbn [bind]; [|discriminate].
    destruct (on_change rest) as [e2|x] eqn:E2; cbn [bind]; [|discriminate].
    intros [= <-]. destruct (IH e2 eq_refl) as [IHp IHa]. split.
    + intros file. rewrite in_app_iff, (on_file_parse f file e1 E1), IHp. simpl.
      split.
      * intros [[-> H]|[H1 H2]]; auto.
      * intros [[->|H1] H2]; auto.
    + intros file [->|Hin] Hn.
      * destruct (on_file_alert file e1 E1 Hn) as (ext & He & Ha).
        exists ext. split; [exact He|]. apply in_or_app. auto.
      * destruct (IHa file Hin Hn) as (ext & He & Ha).
        exists ext. split; [exact He|]. apply in_or_app. auto.
Qed.

Lemma parsed_iff_csv_witness :
  on_change [ {| name := "notes.txt" |}; {| name := "phq.csv" |}; {| name := "README" |} ] =
    Return
      [ console_log "Ext: txt";
        alert "Please upload a CSV worksheet based on our template, not a txt file.";
        console_log "Ext: csv";
        Papa_parse {| name := "phq.csv" |};
        console_log "Ext: undefined";
        alert "Please upload a CSV worksheet based on our template, not a undefined file." ] /\
  (In (Papa_parse {| name := "phq.csv" |})
      [ console_log "Ext: txt";
        alert "Please upload a CSV worksheet based on our template, not a txt file.";
        console_log "Ext: csv";
        Papa_parse {| name := "phq.csv" |};
        console_log "Ext: undefined";
        alert "Please upload a CSV worksheet based on our template, not a undefined file." ] <->
   In {| name := "phq.csv" |}
      [ {| name := "notes.txt" |}; {| name := "phq.csv" |}; {| name := "README" |} ] /\
   exists p, name {| name := "phq.csv" |} = p ++ ".csv").
Proof.
  split; [reflexivity|].
  apply (proj1 (parsed_iff_csv
                  [ {| name := "notes.txt" |}; {| name := "phq.csv" |}; {| name := "README" |} ]
                  _ eq_refl)).
Defined.

(* ================================================================== *)
(** ** Properties of the download links *)
(* ================================================================== *)

Lemma forall_chars_app (P : ascii -> bool) (s1 s2 : string) :
  forall_chars P (s1 ++ s2) = forall_chars P s1 && forall_chars P s2.
Proof.
  induction s1 as [|c r IH]; simpl; [reflexivity|].
  rewrite IH, andb_assoc. reflexivity.
Qed.

Lemma forall_chars_contains (P : ascii -> bool) (s : string) (c : ascii) :
  forall_chars P s = true -> P c = false -> contains c s = false.
Proof.
  intros H Hc. induction s as [|a r IH]; simpl in *; [reflexivity|].
  apply andb_true_iff in H. destruct H as [Ha Hr].
  rewrite (IH Hr), orb_false_r. apply Ascii.eqb_neq. intros ->. congruence.
Qed.

Lemma hex_digit_safe (n : nat) : n < 16 -> uri_safe (hex_digit n) = true.
Proof.
  intros H. do 16 (destruct n as [|n]; [reflexivity|]). lia.
Qed.

Lemma percent_safe (octet : nat) :
  octet < 256 -> forall_chars uri_safe (percent octet) = true.
Proof.
  intros H. unfold percent. cbn [forall_chars].
  rewrite !hex_digit_safe.
  - reflexivity.
  - apply Nat.mod_upper_bound. lia.
  - apply Nat.Div0.div_lt_upper_bound. lia.
Qed.

Lemma nat_of_ascii_bound (c : ascii) : nat_of_ascii c < 256.
Proof. apply nat_ascii_bounded. Qed.

Lemma encodeURIComponent_safe (s : string) :
  forall_chars uri_safe (encodeURIComponent s) = true.
Proof.
  induction s as [|c r IH]; [reflexivity|].
  cbn [encodeURIComponent]. rewrite forall_chars_app, IH, andb_true_r.
  pose proof (nat_of_ascii_bound c) as B.
  destruct (uriUnescaped c) eqn:U.
  - cbn [forall_chars]. unfold uri_safe. rewrite U. reflexivity.
  - destruct (nat_of_ascii c <? 128)%nat.
    + apply percent_safe, B.
    + rewrite forall_chars_app, !percent_safe; [reflexivity| |].
      * pose proof (Nat.mod_upper_bound (nat_of_ascii c) 64). lia.
      * assert (nat_of_ascii c / 64 < 4)
          by (apply Nat.Div0.div_lt_upper_bound; lia).
        lia.
Qed.

(** X17.  The name under which a questionnaire, or the whole file, is
    downloaded is made of letters, digits, [- _ . ! ~ * ' ( )] and
    "%" only: whatever the title or the file name, it has no space, no
    slash and no backslash. *)
Theorem download_names_safe (object : Questionnaire) (file : File) :
  forall_chars uri_safe (download_name object) = true /\
  forall_chars uri_safe (encodeURIComponent (object_name file)) = true /\
  (forall c, uri_safe c = false ->
     contains c (download_name object) = false /\
     contains c (encodeURIComponent (object_name file)) = false) /\
  uri_safe " " = false /\ uri_safe "/" = false /\ uri_safe "\" = false.
Proof.
  assert (A : forall_chars uri_safe (download_name object) = true).
  { unfold download_name. rewrite forall_chars_app, encodeURIComponent_safe. reflexivity. }
  pose proof (encodeURIComponent_safe (object_name file)) as B.
  split; [exact A|]. split; [exact B|]. split; [|repeat split].
  intros c Hc. split; eapply forall_chars_contains; eauto.
Qed.

Lemma download_names_safe_witness :
  uri_safe " " = false /\
  contains " "
    (download_name
       {| activity_type := "survey"; mode := "basic"; frequency := "1";
          title := "PHQ9 (Patient Health Questionnaire)"; questions := [sample_q2] |}) =
  false /\
  contains " " (encodeURIComponent (object_name {| name := "my phq.csv" |})) = false.
Proof.
  split; [reflexivity|].
  pose proof (download_names_safe
                {| activity_type := "survey"; mode := "basic"; frequency := "1";
                   title := "PHQ9 (Patient Health Questionnaire)";
                   questions := [sample_q2] |}
                {| name := "my phq.csv" |}) as (_ & _ & H & _).
  exact (H " "%char eq_refl).
Defined.


Lemma encodeURIComponent_unescaped (s : string) :
  forall_chars uriUnescaped s = true -> encodeURIComponent s = s.
Proof.
  induction s as [|c r IH]; [reflexivity|]. cbn [forall_chars encodeURIComponent].
  intros H. apply andb_true_iff in H. destruct H as [Hc Hr].
  rewrite Hc, (IH Hr). reflexivity.
Qed.

Lemma replace_spaces_unescaped (s : string) :
  forall_chars (fun c => uriUnescaped c || Ascii.eqb c " ") s = true ->
  forall_chars uriUnescaped (replace_spaces s) = true.
Proof.
  induction s as [|c r IH]; [reflexivity|]. cbn [forall_chars replace_spaces].
  intros H. apply andb_true_iff in H. destruct H as [Hc Hr].
  rewrite (IH Hr), andb_true_r.
  destruct (Ascii.eqb c " "); [reflexivity|].
  rewrite orb_false_r in Hc. exact Hc.
Qed.

(** X18.  When the title of a questionnaire is made of letters,
    digits, spaces and [- _ . ! ~ * ' ( )], the questionnaire is
    downloaded under its title with "_" for every space, followed by
    ".json". *)
Theorem download_name_plain (object : Questionnaire) :
  forall_chars (fun c => uriUnescaped c || Ascii.eqb c " ") (title object) = true ->
  download_name object = replace_spaces (title object) ++ ".json".
Proof.
  intros H. unfold download_name.
  rewrite encodeURIComponent_unescaped; [reflexivity|].
  apply replace_spaces_unescaped, H.
Qed.

Lemma download_name_plain_witness :
  forall_chars (fun c => uriUnescaped c || Ascii.eqb c " ")
    "PHQ9 (Patient Health Questionnaire)" = true /\
  download_name
    {| activity_type := "survey"; mode := "basic"; frequency := "1";
       title := "PHQ9 (Patient Health Questionnaire)"; questions := [sample_q2] |} =
  "PHQ9_(Patient_Health_Questionnaire)" ++ ".json".
Proof.
  split; [reflexivity|].
  apply (download_name_plain
           {| activity_type := "survey"; mode := "basic"; frequency := "1";
              title := "PHQ9 (Patient Health Questionnaire)";
              questions := [sample_q2] |}).
  reflexivity.
Defined.

Lemma replace_spaces_idempotent (s : string) :
  replace_spaces (replace_spaces s) = replace_spaces s.
Proof.
  induction s as [|c r IH]; [reflexivity|]. cbn [replace_spaces]. rewrite IH.
  destruct (Ascii.eqb c " ") eqn:E; [reflexivity|]. rewrite E. reflexivity.
Qed.

Lemma replace_spaces_changes (s : string) :
  contains " " s = true -> replace_spaces s <> s.
Proof.
  induction s as [|c r IH]; [discriminate|]. cbn [contains replace_spaces].
  destruct (Ascii.eqb c " ") eqn:E.
  - intros _ H. injection H as H _. subst c. discriminate.
  - cbn [orb]. intros H1 H. injection H as H. exact (IH H1 H).
Qed.

(** X19.  Download names can clash: a questionnaire whose title has a
    space and the one whose title has "_" in the place of every space
    have different titles, so both can be in one output, and the same
    download name. *)
Theorem download_names_clash (Q1 Q2 : Questionnaire) :
  contains " " (title Q1) = true ->
  title Q2 = replace_spaces (title Q1) ->
  title Q1 <> title Q2 /\ download_name Q1 = download_name Q2.
Proof.
  intros Hs Ht. split.
  - rewrite Ht. intros E. apply (replace_spaces_changes _ Hs). symmetry. exact E.
  - unfold download_name. rewrite Ht, replace_spaces_idempotent. reflexivity.
Qed.

Lemma download_names_clash_witness :
  contains " " "PHQ 9" = true /\
  "PHQ_9" = replace_spaces "PHQ 9" /\
  json_restructure [ row "PHQ 9" "PHQ 9" "a" "Text Entry" None;
                     row "PHQ_9" "PHQ_9" "b" "Text Entry" None ] =
    Return
      [ {| activity_type := "survey"; mode := "basic"; frequency := "1";
           title := "PHQ 9";
           questions := [ {| q_title := "a"; q_type := str "text"; q_rows := None;
                             q_variable_name := "q" |} ] |};
        {| activity_type := "survey"; mode := "basic"; frequency := "1";
           title := "PHQ_9";
           questions := [ {| q_title := "b"; q_type := str "text"; q_rows := None;
                             q_variable_name := "q" |} ] |} ] /\
  download_name
    {| activity_type := "survey"; mode := "basic"; frequency := "1";
       title := "PHQ 9";
       questions := [ {| q_title := "a"; q_type := str "text"; q_rows := None;
                         q_variable_name := "q" |} ] |} =
  download_name
    {| activity_type := "survey"; mode := "basic"; frequency := "1";
       title := "PHQ_9";
       questions := [ {| q_title := "b"; q_type := str "text"; q_rows := None;
                         q_variable_name := "q" |} ] |}.
Proof.
  split; [reflexivity|]. split; [reflexivity|]. split; [reflexivity|].
  apply (download_names_clash
           {| activity_type := "survey"; mode := "basic"; frequency := "1";
              title := "PHQ 9";
              questions := [ {| q_title := "a"; q_type := str "text"; q_rows := None;
                                q_variable_name := "q" |} ] |}
           {| activity_type := "survey"; mode := "basic"; frequency := "1";
              title := "PHQ_9";
              questions := [ {| q_title := "b"; q_type := str "text"; q_rows := None;
                                q_variable_name := "q" |} ] |});
    reflexivity.
Defined.






Section LinkFacts.

Variable JSON_stringify : Questionnaire -> string.
Variable JSON_stringify_array : list Questionnaire -> string.




End LinkFacts.

